(** * Shallow embedding of the libavcodec video compression module of UltraGrid
    (src/video_compress/libavcodec.cpp): option parsing, reconfiguration
    messages, pixel format negotiation, quality policy, thread mode and
    performance monitoring. *)

From Stdlib Require Import ZArith QArith String Ascii List Bool Lia SpecFloat.
From stdpp Require Import base gmap strings.

Import ListNotations.
Open Scope string_scope.

(** ** C strings and the C library helpers used by the module *)

Definition ascii_tolower (c : ascii) : ascii :=
  let n := nat_of_ascii c in
  if (65 <=? n)%nat && (n <=? 90)%nat then ascii_of_nat (n + 32) else c.

Definition ascii_toupper (c : ascii) : ascii :=
  let n := nat_of_ascii c in
  if (97 <=? n)%nat && (n <=? 122)%nat then ascii_of_nat (n - 32) else c.

(** [strncasecmp(p, s, strlen(p)) == 0] *)
Fixpoint prefix_ci (p s : string) : bool :=
  match p, s with
  | EmptyString, _ => true
  | String a p', String b s' =>
      Ascii.eqb (ascii_tolower a) (ascii_tolower b) && prefix_ci p' s'
  | _, _ => false
  end.

(** [strcasecmp(a, b) == 0] *)
Fixpoint eq_ci (a b : string) : bool :=
  match a, b with
  | EmptyString, EmptyString => true
  | String x a', String y b' =>
      Ascii.eqb (ascii_tolower x) (ascii_tolower y) && eq_ci a' b'
  | _, _ => false
  end.

(** [strstr(s, p) == s] *)
Fixpoint starts_with (p s : string) : bool :=
  match p, s with
  | EmptyString, _ => true
  | String a p', String b s' => Ascii.eqb a b && starts_with p' s'
  | _, _ => false
  end.

(** [strstr(s, p) != NULL] *)
Fixpoint str_contains (p s : string) : bool :=
  starts_with p s ||
  match s with
  | EmptyString => false
  | String _ s' => str_contains p s'
  end.

Fixpoint str_drop (n : nat) (s : string) : string :=
  match n, s with
  | O, _ => s
  | S n', String _ s' => str_drop n' s'
  | S _, EmptyString => EmptyString
  end.

(** [strchr(s, c) + 1]; only used where [c] occurs in [s] *)
Fixpoint str_after (c : ascii) (s : string) : string :=
  match s with
  | EmptyString => EmptyString
  | String a s' => if Ascii.eqb a c then s' else str_after c s'
  end.

(** [string(s, strchr(s, c))] *)
Fixpoint str_before (c : ascii) (s : string) : string :=
  match s with
  | EmptyString => EmptyString
  | String a s' => if Ascii.eqb a c then EmptyString else String a (str_before c s')
  end.

Definition has_char (c : ascii) (s : string) : bool :=
  str_contains (String c EmptyString) s.

(** [isspace] in the C locale *)
Definition is_space (c : ascii) : bool :=
  let n := nat_of_ascii c in (n =? 32)%nat || ((9 <=? n)%nat && (n <=? 13)%nat).

Fixpoint skip_spaces (s : string) : string * nat :=
  match s with
  | String c s' =>
      if is_space c then let '(r, k) := skip_spaces s' in (r, S k) else (s, O)
  | EmptyString => (s, O)
  end.

Definition digit_val (c : ascii) : option Z :=
  let n := nat_of_ascii c in
  if (48 <=? n)%nat && (n <=? 57)%nat then Some (Z.of_nat n - 48)%Z else None.

(** Reads decimal digits: accumulated value and number of digits read. *)
Fixpoint read_digits (acc : Z) (s : string) : Z * nat :=
  match s with
  | String c s' =>
      match digit_val c with
      | Some d => let '(v, k) := read_digits (acc * 10 + d)%Z s' in (v, S k)
      | None => (acc, O)
      end
  | EmptyString => (acc, O)
  end.

(** Sign prefix of strtol: multiplier and number of characters consumed. *)
Definition read_sign (s : string) : Z * nat * string :=
  match s with
  | String c s' =>
      if Ascii.eqb c "-" then (-1, 1%nat, s')%Z
      else if Ascii.eqb c "+" then (1, 1%nat, s')%Z else (1, 0%nat, s)%Z
  | EmptyString => (1%Z, 0%nat, s)
  end.

Definition INT_MIN : Z := (- 2 ^ 31)%Z.
Definition INT_MAX : Z := (2 ^ 31 - 1)%Z.
Definition LONG_MIN : Z := (- 2 ^ 63)%Z.
Definition LONG_MAX : Z := (2 ^ 63 - 1)%Z.

(** Conversion of an integer to [int]: modulo 2^32 into [INT_MIN, INT_MAX]
    (implementation-defined in C, GCC reduces modulo 2^32); an overflowing
    [int] multiplication, undefined in C, is taken to wrap the same way. *)
Definition wrap_int (z : Z) : Z := ((z + 2 ^ 31) mod 2 ^ 32 - 2 ^ 31)%Z.

(** [strtol(s, NULL, 10)] with a 64-bit [long]: leading blanks, optional
    sign, decimal digits (0 when no digit); an out-of-range value saturates
    to [LONG_MIN] or [LONG_MAX]. *)
Definition strtol (s : string) : Z :=
  let '(s1, _) := skip_spaces s in
  let '(sg, _, s2) := read_sign s1 in
  let '(v, _) := read_digits 0 s2 in Z.max LONG_MIN (Z.min LONG_MAX (sg * v)).

(** [atoi] of glibc: [(int) strtol(s, NULL, 10)]. *)
Definition atoi (s : string) : Z := wrap_int (strtol s).

(** [std::stoi(s, &endpos)]: the value and the position after the number,
    or the exception it throws. *)
Inductive stoi_result :=
| StoiOk (v : Z) (endpos : nat)
| StoiInvalidArgument
| StoiOutOfRange.

Definition stoi (s : string) : stoi_result :=
  let '(s1, k1) := skip_spaces s in
  let '(sg, k2, s2) := read_sign s1 in
  let '(v, k3) := read_digits 0 s2 in
  if (k3 =? 0)%nat then StoiInvalidArgument
  else if (INT_MIN <=? sg * v)%Z && (sg * v <=? INT_MAX)%Z
       then StoiOk (sg * v)%Z (k1 + k2 + k3)%nat
       else StoiOutOfRange.

(** An IEEE double of the source as its value (a rational) or NaN;
    comparisons with NaN are false. Arithmetic on doubles goes through the
    binary64 model below. *)
Inductive dbl := Fin (q : Q) | NaN.

Definition dbl_le (a b : dbl) : bool :=
  match a, b with Fin x, Fin y => Qle_bool x y | _, _ => false end.
Definition dbl_eq (a b : dbl) : bool :=
  match a, b with Fin x, Fin y => Qeq_bool x y | _, _ => false end.

(** *** Binary64 arithmetic (SpecFloat, precision 53, [emax] 1024, rounding
    to nearest even) *)

Definition double := spec_float.
Definition dmul (x y : double) : double := SFmul 53 1024 x y.
Definition ddiv (x y : double) : double := SFdiv 53 1024 x y.

(** Conversion of an integer to [double]. *)
Definition double_of_Z (z : Z) : double := binary_normalize 53 1024 z 0 false.

(** The double nearest to a rational (the rational itself when it is a
    double); a decimal literal of the source is [double_of_Q] of its value. *)
Definition double_of_Q (q : Q) : double :=
  let round s p :=
    let '(m, e, l) := SFdiv_core_binary 53 1024 (Zpos p) 0 (Zpos (Qden q)) 0 in
    binary_round_aux 53 1024 s m e l in
  match Qnum q with
  | Z0 => S754_zero false
  | Zpos p => round false p
  | Zneg p => round true p
  end.

(** Conversion of a double to an integer type: truncation toward zero.
    Infinities and NaN (undefined behaviour in C) give 0. *)
Definition double_to_int (d : double) : Z :=
  match d with
  | S754_finite s m e =>
      let a := if (0 <=? e)%Z then Z.shiftl (Zpos m) e else Z.shiftr (Zpos m) (- e) in
      if s then (- a)%Z else a
  | _ => 0%Z
  end.

(** [strtok_r(fmt, ":", ...)]: the non-empty tokens between colons. *)
Fixpoint strtok_colon_aux (s cur : string) : list string :=
  match s with
  | EmptyString => if String.eqb cur EmptyString then [] else [cur]
  | String c s' =>
      if Ascii.eqb c ":"
      then (if String.eqb cur EmptyString then strtok_colon_aux s' EmptyString
            else cur :: strtok_colon_aux s' EmptyString)
      else strtok_colon_aux s' (cur ++ String c EmptyString)
  end.

Definition strtok_colon (s : string) : list string := strtok_colon_aux s EmptyString.

(** [DELDEL]: two DEL characters standing for an escaped colon. *)
Definition DEL : ascii := ascii_of_nat 127.

(** [replace_all(fmt, ESCAPED_COLON, DELDEL)]: every ["\:"] becomes two DEL. *)
Fixpoint replace_escaped_colon (s : string) : string :=
  match s with
  | String a s' =>
      match s' with
      | String b s'' =>
          if Ascii.eqb a "\" && Ascii.eqb b ":"
          then String DEL (String DEL (replace_escaped_colon s''))
          else String a (replace_escaped_colon s')
      | EmptyString => s
      end
  | EmptyString => EmptyString
  end.

(** [replace_all(c_val_dup, DELDEL, ":")] *)
Fixpoint replace_deldel (s : string) : string :=
  match s with
  | String a s' =>
      match s' with
      | String b s'' =>
          if Ascii.eqb a DEL && Ascii.eqb b DEL
          then String ":" (replace_deldel s'')
          else String a (replace_deldel s')
      | EmptyString => s
      end
  | EmptyString => EmptyString
  end.

(** ** The compression request held in [state_video_compress_libav] *)

(** [VIDEO_CODEC_NONE] *)
Definition VIDEO_CODEC_NONE : Z := 0.

Record to_lavc_req_prop := mk_req_prop {
  subsampling : Z;
  depth : Z;
  rgb : Z;
  force_conv_to : Z
}.

(** The fields of [struct setparam_param] written by [parse_fmt]. *)
Record setparam_param := mk_setparam {
  periodic_intra : Z;
  interlaced_dct : Z;
  thread_mode : string;
  slices : Z
}.

(** The request part of [state_video_compress_libav]: every field that
    [parse_fmt] writes. *)
Record lavc_request := mk_request {
  requested_codec_id : Z;
  requested_bitrate : Z;
  requested_bpp : dbl;
  requested_crf : dbl;
  requested_cqp : Z;
  req_conv_prop : to_lavc_req_prop;
  params : setparam_param;
  backend : string;
  requested_gop : Z;
  lavc_opts : gmap string string;
  store_orig_format : bool;
  conv_thread_count : Z
}.

Definition DEFAULT_GOP_SIZE : Z := 20.

(** The initial values of the member initialisers; [conv_thread_count]
    is the clamped hardware concurrency. *)
Definition initial_request (hw_concurrency : Z) : lavc_request :=
  mk_request VIDEO_CODEC_NONE 0 (Fin 0) (Fin (-1)) (-1)
    (mk_req_prop 0 0 (-1) VIDEO_CODEC_NONE)
    (mk_setparam (-1) (-1) "" (-1)) "" DEFAULT_GOP_SIZE ∅ false
    (Z.max 1 hw_concurrency).

Definition set_codec_id (r : lavc_request) (v : Z) : lavc_request :=
  mk_request v (requested_bitrate r) (requested_bpp r) (requested_crf r) (requested_cqp r)
    (req_conv_prop r) (params r) (backend r) (requested_gop r) (lavc_opts r)
    (store_orig_format r) (conv_thread_count r).
Definition set_bitrate (r : lavc_request) (v : Z) : lavc_request :=
  mk_request (requested_codec_id r) v (requested_bpp r) (requested_crf r) (requested_cqp r)
    (req_conv_prop r) (params r) (backend r) (requested_gop r) (lavc_opts r)
    (store_orig_format r) (conv_thread_count r).
Definition set_bpp (r : lavc_request) (v : dbl) : lavc_request :=
  mk_request (requested_codec_id r) (requested_bitrate r) v (requested_crf r) (requested_cqp r)
    (req_conv_prop r) (params r) (backend r) (requested_gop r) (lavc_opts r)
    (store_orig_format r) (conv_thread_count r).
Definition set_crf (r : lavc_request) (v : dbl) : lavc_request :=
  mk_request (requested_codec_id r) (requested_bitrate r) (requested_bpp r) v (requested_cqp r)
    (req_conv_prop r) (params r) (backend r) (requested_gop r) (lavc_opts r)
    (store_orig_format r) (conv_thread_count r).
Definition set_cqp_req (r : lavc_request) (v : Z) : lavc_request :=
  mk_request (requested_codec_id r) (requested_bitrate r) (requested_bpp r) (requested_crf r) v
    (req_conv_prop r) (params r) (backend r) (requested_gop r) (lavc_opts r)
    (store_orig_format r) (conv_thread_count r).
Definition set_conv_prop (r : lavc_request) (v : to_lavc_req_prop) : lavc_request :=
  mk_request (requested_codec_id r) (requested_bitrate r) (requested_bpp r) (requested_crf r)
    (requested_cqp r) v (params r) (backend r) (requested_gop r) (lavc_opts r)
    (store_orig_format r) (conv_thread_count r).
Definition set_params (r : lavc_request) (v : setparam_param) : lavc_request :=
  mk_request (requested_codec_id r) (requested_bitrate r) (requested_bpp r) (requested_crf r)
    (requested_cqp r) (req_conv_prop r) v (backend r) (requested_gop r) (lavc_opts r)
    (store_orig_format r) (conv_thread_count r).
Definition set_backend (r : lavc_request) (v : string) : lavc_request :=
  mk_request (requested_codec_id r) (requested_bitrate r) (requested_bpp r) (requested_crf r)
    (requested_cqp r) (req_conv_prop r) (params r) v (requested_gop r) (lavc_opts r)
    (store_orig_format r) (conv_thread_count r).
Definition set_gop (r : lavc_request) (v : Z) : lavc_request :=
  mk_request (requested_codec_id r) (requested_bitrate r) (requested_bpp r) (requested_crf r)
    (requested_cqp r) (req_conv_prop r) (params r) (backend r) v (lavc_opts r)
    (store_orig_format r) (conv_thread_count r).
Definition set_lavc_opts (r : lavc_request) (v : gmap string string) : lavc_request :=
  mk_request (requested_codec_id r) (requested_bitrate r) (requested_bpp r) (requested_crf r)
    (requested_cqp r) (req_conv_prop r) (params r) (backend r) (requested_gop r) v
    (store_orig_format r) (conv_thread_count r).
Definition set_store_orig_format (r : lavc_request) (v : bool) : lavc_request :=
  mk_request (requested_codec_id r) (requested_bitrate r) (requested_bpp r) (requested_crf r)
    (requested_cqp r) (req_conv_prop r) (params r) (backend r) (requested_gop r) (lavc_opts r)
    v (conv_thread_count r).
Definition set_conv_thread_count (r : lavc_request) (v : Z) : lavc_request :=
  mk_request (requested_codec_id r) (requested_bitrate r) (requested_bpp r) (requested_crf r)
    (requested_cqp r) (req_conv_prop r) (params r) (backend r) (requested_gop r) (lavc_opts r)
    (store_orig_format r) v.

Definition set_subsampling (p : to_lavc_req_prop) (v : Z) :=
  mk_req_prop v (depth p) (rgb p) (force_conv_to p).
Definition set_depth (p : to_lavc_req_prop) (v : Z) :=
  mk_req_prop (subsampling p) v (rgb p) (force_conv_to p).
Definition set_rgb (p : to_lavc_req_prop) (v : Z) :=
  mk_req_prop (subsampling p) (depth p) v (force_conv_to p).
Definition set_periodic_intra (p : setparam_param) (v : Z) :=
  mk_setparam v (interlaced_dct p) (thread_mode p) (slices p).
Definition set_interlaced_dct (p : setparam_param) (v : Z) :=
  mk_setparam (periodic_intra p) v (thread_mode p) (slices p).
Definition set_thread_mode (p : setparam_param) (v : string) :=
  mk_setparam (periodic_intra p) (interlaced_dct p) v (slices p).
Definition set_slices (p : setparam_param) (v : Z) :=
  mk_setparam (periodic_intra p) (interlaced_dct p) (thread_mode p) v.

(** ** [parse_fmt] *)

(** Outcome of one iteration of the [strtok_r] loop of [parse_fmt]:
    continue with the (updated) request and [show_help], [return -1] with
    the request as written so far, or an uncaught C++ exception / failed
    assertion, which ends the process. *)
Inductive item_res :=
| ItemNext (r : lavc_request) (show_help : bool)
| ItemFail (r : lavc_request)
| ItemAbort.

(** Result of [parse_fmt]: its return value and the request it wrote into
    the state, or process termination. *)
Inductive parse_res :=
| PResult (ret : Z) (r : lavc_request)
| PAbort.

Section ParseFmt.
(** Helpers of other UltraGrid modules and of libc that [parse_fmt]
    calls; [unit_evaluate_dbl] and [atof] may return NaN. *)
Variable get_codec_from_name : string -> Z.
Variable unit_evaluate : string -> Z.
Variable unit_evaluate_dbl : string -> dbl.
Variable atof : string -> dbl.
(** [get_commandline_param("lavc-use-codec")] is ["help"] *)
Variable lavc_use_codec_is_help : bool.
(** [get_commandline_param("keep-pixfmt") != nullptr] *)
Variable keep_pixfmt : bool.

Definition parse_item (r : lavc_request) (show_help : bool) (item : string) : item_res :=
  if prefix_ci "help" item then ItemNext r true
  else if prefix_ci "codec=" item then
    let r' := set_codec_id r (get_codec_from_name (str_drop 6 item)) in
    if (requested_codec_id r' =? VIDEO_CODEC_NONE)%Z then ItemFail r' else ItemNext r' show_help
  else if prefix_ci "bitrate=" item then
    let r' := set_bitrate r (unit_evaluate (str_drop 8 item)) in
    if (0 <=? requested_bitrate r')%Z then ItemNext r' show_help else ItemAbort
  else if prefix_ci "bpp=" item then
    let r' := set_bpp r (unit_evaluate_dbl (str_drop 4 item)) in
    match requested_bpp r' with NaN => ItemFail r' | Fin _ => ItemNext r' show_help end
  else if prefix_ci "crf=" item then
    ItemNext (set_crf r (atof (str_drop 4 item))) show_help
  else if starts_with "cqp=" item || starts_with "q=" item then
    ItemNext (set_cqp_req r (atoi (str_after "=" item))) show_help
  else if prefix_ci "subsampling=" item then
    let v := atoi (str_drop 12 item) in
    let v := if (v <? 1000)%Z then wrap_int (v * 10) else v in
    let r' := set_conv_prop r (set_subsampling (req_conv_prop r) v) in
    if (v =? 4440)%Z || (v =? 4220)%Z || (v =? 4200)%Z then ItemNext r' show_help
    else ItemFail r'
  else if starts_with "depth=" item then
    ItemNext (set_conv_prop r (set_depth (req_conv_prop r) (atoi (str_after "=" item)))) show_help
  else if eq_ci item "rgb" || eq_ci item "yuv" then
    ItemNext (set_conv_prop r (set_rgb (req_conv_prop r) (if eq_ci item "rgb" then 1 else 0)%Z))
      show_help
  else if str_contains "intra_refresh" item then
    ItemNext (set_params r (set_periodic_intra (params r)
                              (if starts_with "disable_" item then 0 else 1)%Z)) show_help
  else if str_contains "interlaced_dct" item then
    ItemNext (set_params r (set_interlaced_dct (params r)
                              (if starts_with "disable_" item then 0 else 1)%Z)) show_help
  else if prefix_ci "threads=" item then
    let threads := str_drop 8 item in
    if has_char "," threads then
      match stoi (str_after "," threads) with
      | StoiOk n _ =>
          ItemNext (set_params (set_conv_thread_count r n)
                      (set_thread_mode (params r) (str_before "," threads))) show_help
      | _ => ItemAbort
      end
    else ItemNext (set_params r (set_thread_mode (params r) threads)) show_help
  else if prefix_ci "slices=" item then
    match stoi (str_after "=" item) with
    | StoiOk n _ => ItemNext (set_params r (set_slices (params r) n)) show_help
    | _ => ItemAbort
    end
  else if prefix_ci "encoder=" item then
    ItemNext (set_backend r (str_drop 8 item)) show_help
  else if prefix_ci "gop=" item then
    ItemNext (set_gop r (atoi (str_drop 4 item))) show_help
  else if has_char "=" item then
    ItemNext (set_lavc_opts r (<[str_before "=" item := replace_deldel (str_after "=" item)]>
                                 (lavc_opts r))) show_help
  else ItemFail r.

Fixpoint parse_items (r : lavc_request) (show_help : bool) (items : list string) : item_res :=
  match items with
  | [] => ItemNext r show_help
  | item :: rest =>
      match parse_item r show_help item with
      | ItemNext r' h' => parse_items r' h' rest
      | res => res
      end
  end.

(** [parse_fmt(s, fmt)] writes directly into the request of [s]; the
    help printing is output only. *)
Definition parse_fmt (r : lavc_request) (fmt : string) : parse_res :=
  match parse_items r false (strtok_colon (replace_escaped_colon fmt)) with
  | ItemAbort => PAbort
  | ItemFail r' => PResult (-1) r'
  | ItemNext r' show_help =>
      let r'' := if keep_pixfmt then set_store_orig_format r' true else r' in
      if show_help || lavc_use_codec_is_help then PResult 1 r'' else PResult 0 r''
  end.

(** Response of [libavcodec_check_messages] to one message. *)
Inductive response := RESPONSE_OK | RESPONSE_INT_SERV_ERR.

End ParseFmt.

(** ** Stream descriptions and the module state *)

(** [struct video_desc]; the frame rate is a finite double. *)
Record video_desc := mk_desc {
  width : Z;
  height : Z;
  color_spec : Z;
  fps : Q;
  interlacing : Z;
  tile_count : Z
}.

(** [memset(&s->saved_desc, 0, sizeof(s->saved_desc))] *)
Definition zero_desc : video_desc := mk_desc 0 0 0 0 0 0.

(** Modelled from the spec: [video_desc_eq_excl_param(a, b, PARAM_TILE_COUNT)]
    (not in the sources) compares two stream descriptions in every field
    except the tile count. *)
Definition video_desc_eq_excl_tile_count (a b : video_desc) : bool :=
  (width a =? width b)%Z && (height a =? height b)%Z && (color_spec a =? color_spec b)%Z &&
  Qeq_bool (fps a) (fps b) && (interlacing a =? interlacing b)%Z.

(** The part of [state_video_compress_libav] the claims are about. *)
Record lavc_state := mk_state {
  saved_desc : video_desc;
  req : lavc_request;
  compressed_desc : video_desc;
  mov_avg_comp_duration : Q;
  mov_avg_frames : Z
}.

Definition set_saved_desc (s : lavc_state) (d : video_desc) : lavc_state :=
  mk_state d (req s) (compressed_desc s) (mov_avg_comp_duration s) (mov_avg_frames s).
Definition set_req (s : lavc_state) (r : lavc_request) : lavc_state :=
  mk_state (saved_desc s) r (compressed_desc s) (mov_avg_comp_duration s) (mov_avg_frames s).

Section Messages.
Variable get_codec_from_name : string -> Z.
Variable unit_evaluate : string -> Z.
Variable unit_evaluate_dbl : string -> dbl.
Variable atof : string -> dbl.
Variable lavc_use_codec_is_help : bool.
Variable keep_pixfmt : bool.

Let parse := parse_fmt get_codec_from_name unit_evaluate unit_evaluate_dbl atof
               lavc_use_codec_is_help keep_pixfmt.

(** [libavcodec_check_messages]: every pending message is parsed into
    the live request; the cached description is zeroed after each one.
    [None] when parsing ends the process. *)
Fixpoint libavcodec_check_messages (s : lavc_state) (msgs : list string)
  : option (lavc_state * list response) :=
  match msgs with
  | [] => Some (s, [])
  | config_string :: rest =>
      match parse (req s) config_string with
      | PAbort => None
      | PResult ret r' =>
          let resp := if (ret =? 0)%Z then RESPONSE_OK else RESPONSE_INT_SERV_ERR in
          let s1 := set_saved_desc (set_req s r') zero_desc in
          match libavcodec_check_messages s1 rest with
          | None => None
          | Some (s2, resps) => Some (s2, resp :: resps)
          end
      end
  end.

(** The part of [configure_with] after a pixel format has been found:
    [ug_codec] is the codec it resolved. *)
Definition configure_with_success (s : lavc_state) (desc : video_desc) (ug_codec : Z)
  : lavc_state :=
  mk_state desc (req s)
    (mk_desc (width desc) (height desc) ug_codec (fps desc) (interlacing desc) 1)
    0 0.

(** Start of [libavcodec_compress_tile] for a frame described by [d]:
    pending messages, then reconfiguration when [d] differs from the
    saved description. [configure_result] is what [configure_with]
    reaches for this state and description: [None] when it returns
    false, [Some ug_codec] when it succeeds. *)
Inductive tile_outcome :=
| TileAbort
| TileReady (s : lavc_state) (reconfigured : bool)
| TileNoOutput (s : lavc_state).

Definition compress_tile_prologue (s : lavc_state) (msgs : list string) (d : video_desc)
    (configure_result : option Z) : tile_outcome :=
  match libavcodec_check_messages s msgs with
  | None => TileAbort
  | Some (s1, _) =>
      if video_desc_eq_excl_tile_count d (saved_desc s1) then TileReady s1 false
      else match configure_result with
           | Some ug_codec => TileReady (configure_with_success s1 d ug_codec) true
           | None => TileNoOutput s1
           end
  end.

(** Whether [compress_tile_prologue] runs [cleanup] and [configure_with]. *)
Definition tile_reconfigures (s : lavc_state) (msgs : list string) (d : video_desc) : bool :=
  match libavcodec_check_messages s msgs with
  | None => false
  | Some (s1, _) => negb (video_desc_eq_excl_tile_count d (saved_desc s1))
  end.
End Messages.

(** ** Quality policy of [set_codec_ctx_params] *)

(** Tags of the [codec_t] enumerators in the [codec_params] table (their
    numeric values live in types.h, outside the sources; only their
    distinctness matters here). *)
Definition H264 : Z := 14.
Definition H265 : Z := 15.
Definition MJPG : Z := 16.
Definition VP8 : Z := 17.
Definition VP9 : Z := 18.
Definition J2K : Z := 20.
Definition HFYU : Z := 22.
Definition FFV1 : Z := 23.
Definition AV1 : Z := 27.
Definition PRORES : Z := 28.

(** [codec_params[ug_codec].avg_bpp]: the double literals of the table,
    [0.07 * 2 * 2] evaluated in double; [std::map::operator[]]
    value-initialises (0) the entry of a codec missing from the table. *)
Definition codec_params_avg_bpp (c : Z) : double :=
  if (c =? H264)%Z then dmul (dmul (double_of_Q 0.07) (double_of_Z 2)) (double_of_Z 2)
  else if (c =? H265)%Z then dmul (dmul (double_of_Q 0.04) (double_of_Z 2)) (double_of_Z 2)
  else if (c =? MJPG)%Z then double_of_Q 1.2
  else if (c =? J2K)%Z then double_of_Q 1.0
  else if (c =? VP8)%Z then double_of_Q 0.4
  else if (c =? VP9)%Z then double_of_Q 0.4
  else if (c =? HFYU)%Z then double_of_Z 0
  else if (c =? FFV1)%Z then double_of_Z 0
  else if (c =? AV1)%Z then double_of_Q 0.1
  else if (c =? PRORES)%Z then double_of_Q 0.5
  else double_of_Z 0.

Definition DEFAULT_CQP : Z := 21.
Definition DEFAULT_CQP_MJPEG_QSV : Z := 80.
Definition DEFAULT_CQP_QSV : Z := 5000.
Definition DEFAULT_X264_X265_CRF : Q := 22.

(** [unsigned int] multiplication *)
Definition u32_mul (a b : Z) : Z := ((a * b) mod 2 ^ 32)%Z.

(** Fields of [AVCodecContext] written by the quality policy; [opt_qp] and
    [opt_crf] are the private options "qp" and "crf"; [bit_rate] is [None]
    while the tuner has not assigned it. *)
Record codec_ctx := mk_ctx {
  flag_qscale : bool;
  qmin : Z;
  qmax : Z;
  global_quality : Z;
  opt_qp : option Z;
  opt_crf : option Q;
  bit_rate : option Z;
  bit_rate_tolerance : option Z
}.

(** [regex_match(name, regex(".*_vaapi"))] *)
Definition ends_with (suffix s : string) : bool :=
  let n := String.length s in let k := String.length suffix in
  (k <=? n)%nat && String.eqb (substring (n - k) k s) suffix.

(** [set_cqp] *)
Definition set_cqp (codec_name : string) (ctx : codec_ctx) (requested_cqp : Z) : codec_ctx :=
  let cqp :=
    if (requested_cqp =? -1)%Z then
      (if str_contains "_qsv" codec_name then
         (if String.eqb codec_name "mjpeg_qsv" then DEFAULT_CQP_MJPEG_QSV else DEFAULT_CQP_QSV)
       else DEFAULT_CQP)
    else requested_cqp in
  if String.eqb codec_name "mjpeg" then
    mk_ctx true cqp cqp (global_quality ctx) (opt_qp ctx) (opt_crf ctx) (bit_rate ctx)
      (bit_rate_tolerance ctx)
  else if str_contains "_qsv" codec_name then
    mk_ctx true (qmin ctx) (qmax ctx) cqp (opt_qp ctx) (opt_crf ctx) (bit_rate ctx)
      (bit_rate_tolerance ctx)
  else
    mk_ctx true (qmin ctx) (qmax ctx) (global_quality ctx) (Some cqp) (opt_crf ctx)
      (bit_rate ctx) (bit_rate_tolerance ctx).

Inductive quality_mode := QM_CQP | QM_CRF | QM_BITRATE.

(** The three-way [if] of [set_codec_ctx_params] ("set quality"). *)
Definition select_quality_mode (codec_name : string) (r : lavc_request) : quality_mode :=
  let is_x264_x265 := starts_with "libx26" codec_name in
  let is_vaapi := ends_with "_vaapi" codec_name in
  let is_mjpeg := str_contains "mjpeg" codec_name in
  if (0 <=? requested_cqp r)%Z ||
     ((is_vaapi || is_mjpeg) && dbl_eq (requested_crf r) (Fin (-1)) &&
      (requested_bitrate r =? 0)%Z && dbl_eq (requested_bpp r) (Fin 0))
  then QM_CQP
  else if dbl_le (Fin 0) (requested_crf r) ||
          (is_x264_x265 && (requested_bitrate r =? 0)%Z && dbl_eq (requested_bpp r) (Fin 0))
  then QM_CRF
  else QM_BITRATE.

(** [avg_bpp] of [set_codec_ctx_params] *)
Definition avg_bpp_of (r : lavc_request) (ug_codec : Z) : double :=
  match requested_bpp r with
  | Fin q => if negb (Qle_bool q 0) then double_of_Q q else codec_params_avg_bpp ug_codec
  | NaN => codec_params_avg_bpp ug_codec
  end.

(** [bitrate] of [set_codec_ctx_params]: the conditional expression has
    type [double] (its operands are a [long long] and a [double]), so the
    explicit bitrate is converted to double and back; the other operand is
    [desc.width * desc.height * avg_bpp * desc.fps] evaluated left to right,
    the product of the two [unsigned] fields first (modulo 2^32). *)
Definition target_bitrate (r : lavc_request) (desc : video_desc) (ug_codec : Z) : Z :=
  double_to_int
    (if (0 <? requested_bitrate r)%Z then double_of_Z (requested_bitrate r)
     else dmul (dmul (double_of_Z (u32_mul (width desc) (height desc))) (avg_bpp_of r ug_codec))
            (double_of_Q (fps desc))).

(** The rate-control part of [set_codec_ctx_params] on the context [ctx]
    of the encoder [codec_name]; [bit_rate_tolerance] is
    [bitrate / desc.fps * 6] in double, truncated toward zero (its
    conversion to [int] out of range, undefined in C, is not modelled). *)
Definition set_codec_ctx_quality (codec_name : string) (ctx : codec_ctx) (r : lavc_request)
    (desc : video_desc) (ug_codec : Z) : codec_ctx :=
  let bitrate := target_bitrate r desc ug_codec in
  let '(ctx1, set_bitrate) :=
    match select_quality_mode codec_name r with
    | QM_CQP => (set_cqp codec_name ctx (requested_cqp r), false)
    | QM_CRF =>
        let crf := match requested_crf r with
                   | Fin q => if Qle_bool 0 q then q else DEFAULT_X264_X265_CRF
                   | NaN => DEFAULT_X264_X265_CRF
                   end in
        (mk_ctx (flag_qscale ctx) (qmin ctx) (qmax ctx) (global_quality ctx) (opt_qp ctx)
           (Some crf) (bit_rate ctx) (bit_rate_tolerance ctx), false)
    | QM_BITRATE => (ctx, true)
    end in
  if set_bitrate || (0 <? requested_bitrate r)%Z then
    mk_ctx (flag_qscale ctx1) (qmin ctx1) (qmax ctx1) (global_quality ctx1) (opt_qp ctx1)
      (opt_crf ctx1) (Some bitrate)
      (Some (double_to_int (dmul (ddiv (double_of_Z bitrate) (double_of_Q (fps desc))) (double_of_Z 6))))
  else ctx1.

(** ** Pixel format negotiation *)

Definition AV_PIX_FMT_NONE : Z := -1.

(** The entries of an [AV_PIX_FMT_NONE]-terminated array. *)
Fixpoint take_until_none (fmts : list Z) : list Z :=
  match fmts with
  | [] => []
  | f :: rest => if (f =? AV_PIX_FMT_NONE)%Z then [] else f :: take_until_none rest
  end.

(** [get_first_matching_pix_fmt(it, end, codec_pix_fmts)]: [it] is the
    range from the iterator to [end]; the result pairs the returned format
    with the range from the advanced iterator. [None] stands for a NULL
    [codec_pix_fmts]. *)
Fixpoint get_first_matching_pix_fmt (it : list Z) (codec_pix_fmts : option (list Z))
  : Z * list Z :=
  match codec_pix_fmts with
  | None => (AV_PIX_FMT_NONE, it)
  | Some fmts =>
      match it with
      | [] => (AV_PIX_FMT_NONE, [])
      | c :: rest =>
          if existsb (Z.eqb c) (take_until_none fmts) then (c, rest)
          else get_first_matching_pix_fmt rest codec_pix_fmts
      end
  end.

(** The [while] loop of [configure_with] over the candidate list.
    [try_open_codec k f] is the outcome of the [k]-th trial open, with
    format [f]: [None] when it fails, [Some f'] when it succeeds ([f'] is
    the format it leaves in [pix_fmt]). The result is the final [pix_fmt]
    and the formats passed to [try_open_codec], in order. [fuel] bounds the
    iterations; [configure_with_pix_fmt] gives enough. *)
Fixpoint pix_fmt_loop (fuel : nat) (k : nat) (try_open_codec : nat -> Z -> option Z)
    (it : list Z) (codec_pix_fmts : option (list Z)) : Z * list Z :=
  match fuel with
  | O => (AV_PIX_FMT_NONE, [])
  | S fuel' =>
      let '(pix_fmt, it') := get_first_matching_pix_fmt it codec_pix_fmts in
      if (pix_fmt =? AV_PIX_FMT_NONE)%Z then (AV_PIX_FMT_NONE, [])
      else match try_open_codec k pix_fmt with
           | Some f => (f, [pix_fmt])
           | None =>
               let '(res, trials) := pix_fmt_loop fuel' (S k) try_open_codec it' codec_pix_fmts in
               (res, pix_fmt :: trials)
           end
  end.

Definition configure_with_pix_fmt (try_open_codec : nat -> Z -> option Z)
    (requested_pix_fmt : list Z) (codec_pix_fmts : option (list Z)) : Z * list Z :=
  pix_fmt_loop (S (length requested_pix_fmt)) 0 try_open_codec requested_pix_fmt codec_pix_fmts.

(** ** [set_codec_thread_mode] *)

Definition FF_THREAD_FRAME : Z := 1.
Definition FF_THREAD_SLICE : Z := 2.
Definition AV_CODEC_CAP_FRAME_THREADS : Z := 2 ^ 12.
Definition AV_CODEC_CAP_SLICE_THREADS : Z := 2 ^ 13.
Definition AV_CODEC_CAP_OTHER_THREADS : Z := 2 ^ 15.

(** The [switch (toupper(c))] loop over the letters after the number. *)
Fixpoint thread_mode_letters (s : string) (req_thread_type : Z) : Z :=
  match s with
  | EmptyString => req_thread_type
  | String c s' =>
      let u := ascii_toupper c in
      let t := if Ascii.eqb u "n" then -1
               else if Ascii.eqb u "F" then Z.lor req_thread_type FF_THREAD_FRAME
               else if Ascii.eqb u "S" then Z.lor req_thread_type FF_THREAD_SLICE
               else req_thread_type (* "Unknown thread mode" *) in
      thread_mode_letters s' t
  end%Z.

(** [req_thread_count] and [req_thread_type] after parsing the thread mode
    (before the capability defaults); [None] when [stoi] throws
    [out_of_range], which is not caught. *)
Definition parse_thread_mode (thread_mode : string) : option (Z * Z) :=
  let r := match stoi thread_mode with
           | StoiOk v endpos => Some (v, endpos)
           | StoiInvalidArgument => Some ((-1)%Z, O)
           | StoiOutOfRange => None
           end in
  match r with
  | None => None
  | Some (cnt, endpos) => Some (cnt, thread_mode_letters (str_drop endpos thread_mode) 0%Z)
  end.

Definition has_cap (caps flag : Z) : bool := negb (Z.land caps flag =? 0)%Z.

(** [set_codec_thread_mode]: resulting [(thread_type, thread_count)] of the
    context, from the initial ones [(tt0, tc0)], the codec capabilities and
    name and [thread::hardware_concurrency()]. *)
Definition set_codec_thread_mode (caps : Z) (codec_name : string) (hw_concurrency : Z)
    (tt0 tc0 : Z) (thread_mode : string) : option (Z * Z) :=
  if String.eqb thread_mode "no" then Some (0, 1)%Z
  else match parse_thread_mode thread_mode with
  | None => None
  | Some (req_thread_count, t) =>
      let req_thread_type :=
        if (t =? 0)%Z then (if has_cap caps AV_CODEC_CAP_SLICE_THREADS then FF_THREAD_SLICE else 0%Z)
        else if (t =? -1)%Z then 0%Z else t in
      let thread_type :=
        if (has_cap req_thread_type FF_THREAD_SLICE && negb (has_cap caps AV_CODEC_CAP_SLICE_THREADS)) ||
           (has_cap req_thread_type FF_THREAD_FRAME && negb (has_cap caps AV_CODEC_CAP_FRAME_THREADS))
        then tt0 (* "Codec doesn't support specified thread mode" *)
        else req_thread_type in
      let thread_count :=
        if negb (req_thread_count =? -1)%Z then req_thread_count
        else if has_cap caps AV_CODEC_CAP_OTHER_THREADS then
          (if starts_with "libvpx" codec_name then 0%Z else tc0)
        else if negb (thread_type =? 0)%Z then hw_concurrency
        else tc0 in
      Some (thread_type, thread_count)
  end.

(** ** Rate control of [configure_qsv_h264_hevc] *)

Definition DEFAULT_QSV_RC : string := "vbr".

(** Fields of the QSV [AVCodecContext] written by the rate-control part. *)
Record qsv_ctx := mk_qsv {
  q_bit_rate : Z;
  q_rc_max_rate : Z;
  q_flag_qscale : bool;
  q_global_quality : Z
}.

Inductive qsv_result :=
| QsvConfigured (ctx : qsv_ctx) (blacklist_opts : gset string)
| QsvExit (status : Z)
| QsvAssertFailed.

(** Modelled from the spec: [exit_uv(status)] (not in the sources) ends the
    process with [status]; [configure_qsv_h264_hevc] does nothing after it. *)
Definition exit_uv (status : Z) : qsv_result := QsvExit status.

(** The "rc" option, or the default, and the blacklist after reading it. *)
Definition qsv_rc_of (lavc_opts : gmap string string) (blacklist_opts : gset string)
  : string * gset string :=
  match lavc_opts !! "rc" with
  | Some rc => (rc, {[ "rc" ]} ∪ blacklist_opts)
  | None => (DEFAULT_QSV_RC, blacklist_opts)
  end.

(** The "rate control" part of [configure_qsv_h264_hevc]. *)
Definition configure_qsv_rc (ctx : qsv_ctx) (lavc_opts : gmap string string)
    (blacklist_opts : gset string) : qsv_result :=
  let '(rc, bl) := qsv_rc_of lavc_opts blacklist_opts in
  if String.eqb rc "help" then exit_uv 0
  else if eq_ci rc "cbr" then
    QsvConfigured (mk_qsv (q_bit_rate ctx) (q_bit_rate ctx) (q_flag_qscale ctx) (q_global_quality ctx)) bl
  else if eq_ci rc "cqp" then
    QsvConfigured (mk_qsv (q_bit_rate ctx) (q_rc_max_rate ctx) true (q_global_quality ctx)) bl
  else if eq_ci rc "icq" || eq_ci rc "qvbr" then
    let gq := if (q_global_quality ctx <=? 0)%Z then DEFAULT_CQP else q_global_quality ctx in
    if eq_ci rc "qvbr" then
      (if (0 <? q_bit_rate ctx)%Z
       then QsvConfigured (mk_qsv (q_bit_rate ctx) (23 * q_bit_rate ctx / 20) false gq) bl
       else QsvAssertFailed)
    else QsvConfigured (mk_qsv (q_bit_rate ctx) (q_rc_max_rate ctx) false gq) bl
  else if eq_ci rc "vbr" then QsvConfigured ctx bl
  else exit_uv 1 (* "Unknown/unsupported RC ... Please report" *).

(** ** Performance monitor: [check_duration] *)

Definition mov_window : Z := 100.
Definition NS_IN_SEC : Z := 1000000000.

Definition set_mov_avg (s : lavc_state) (avg : Q) (frames : Z) : lavc_state :=
  mk_state (saved_desc s) (req s) (compressed_desc s) avg frames.

(** [check_duration(s, dur_pixfmt_change_ns, dur_total_ns)]: the new state
    and whether the warning "Average compression time ..." (followed by the
    hints) is emitted. *)
Definition check_duration (s : lavc_state) (dur_total_ns : Z) : lavc_state * bool :=
  if (10 * mov_window <=? mov_avg_frames s)%Z then (s, false)
  else
    let duration := (inject_Z dur_total_ns / inject_Z NS_IN_SEC)%Q in
    let avg := ((mov_avg_comp_duration s * inject_Z (mov_window - 1) + duration)
               / inject_Z mov_window)%Q in
    let frames := (mov_avg_frames s + 1)%Z in
    if (frames <? 2 * mov_window)%Z || negb (Qle_bool (1 / fps (compressed_desc s))%Q avg)
    then (set_mov_avg s avg frames, false)
    else (set_mov_avg s avg LONG_MAX, true).

(** [check_duration] over the frames of a run, one duration per frame:
    final state and, per frame, whether the warning was emitted. *)
Fixpoint monitor_run (s : lavc_state) (durations : list Z) : lavc_state * list bool :=
  match durations with
  | [] => (s, [])
  | d :: rest =>
      let '(s1, fired) := check_duration s d in
      let '(s2, fs) := monitor_run s1 rest in (s2, fired :: fs)
  end.

Definition count_true (l : list bool) : nat := List.count_occ Bool.bool_dec l true.

(** ** UltraGrid and FFmpeg codec identifiers ([libavcodec/lavc_common.c]) *)

(** The FFmpeg codec ids listed in [av_to_uv_map]; [AV_CODEC_ID_OTHER n]
    is any other id of FFmpeg's [enum AVCodecID]. *)
Inductive AVCodecID :=
| AV_CODEC_ID_NONE
| AV_CODEC_ID_H264
| AV_CODEC_ID_HEVC
| AV_CODEC_ID_MJPEG
| AV_CODEC_ID_JPEG2000
| AV_CODEC_ID_VP8
| AV_CODEC_ID_VP9
| AV_CODEC_ID_HUFFYUV
| AV_CODEC_ID_FFV1
| AV_CODEC_ID_AV1
| AV_CODEC_ID_PRORES
| AV_CODEC_ID_OTHER (n : Z).

Definition AVCodecID_eqb (a b : AVCodecID) : bool :=
  match a, b with
  | AV_CODEC_ID_NONE, AV_CODEC_ID_NONE
  | AV_CODEC_ID_H264, AV_CODEC_ID_H264
  | AV_CODEC_ID_HEVC, AV_CODEC_ID_HEVC
  | AV_CODEC_ID_MJPEG, AV_CODEC_ID_MJPEG
  | AV_CODEC_ID_JPEG2000, AV_CODEC_ID_JPEG2000
  | AV_CODEC_ID_VP8, AV_CODEC_ID_VP8
  | AV_CODEC_ID_VP9, AV_CODEC_ID_VP9
  | AV_CODEC_ID_HUFFYUV, AV_CODEC_ID_HUFFYUV
  | AV_CODEC_ID_FFV1, AV_CODEC_ID_FFV1
  | AV_CODEC_ID_AV1, AV_CODEC_ID_AV1
  | AV_CODEC_ID_PRORES, AV_CODEC_ID_PRORES => true
  | AV_CODEC_ID_OTHER n, AV_CODEC_ID_OTHER m => (n =? m)%Z
  | _, _ => false
  end.

(** [av_to_uv_map], in its order. *)
Definition av_to_uv_map : list (AVCodecID * Z) :=
  [(AV_CODEC_ID_H264, H264); (AV_CODEC_ID_HEVC, H265); (AV_CODEC_ID_MJPEG, MJPG);
   (AV_CODEC_ID_JPEG2000, J2K); (AV_CODEC_ID_VP8, VP8); (AV_CODEC_ID_VP9, VP9);
   (AV_CODEC_ID_HUFFYUV, HFYU); (AV_CODEC_ID_FFV1, FFV1); (AV_CODEC_ID_AV1, AV1);
   (AV_CODEC_ID_PRORES, PRORES)].

(** The [for] loop of [get_av_to_ug_codec] over the map. *)
Fixpoint av_to_ug_loop (m : list (AVCodecID * Z)) (av_codec : AVCodecID) : Z :=
  match m with
  | [] => VIDEO_CODEC_NONE
  | (av, uv) :: m' => if AVCodecID_eqb av av_codec then uv else av_to_ug_loop m' av_codec
  end.

(** The [for] loop of [get_ug_to_av_codec] over the map. *)
Fixpoint ug_to_av_loop (m : list (AVCodecID * Z)) (ug_codec : Z) : AVCodecID :=
  match m with
  | [] => AV_CODEC_ID_NONE
  | (av, uv) :: m' => if (uv =? ug_codec)%Z then av else ug_to_av_loop m' ug_codec
  end.

Definition get_av_to_ug_codec (av_codec : AVCodecID) : Z := av_to_ug_loop av_to_uv_map av_codec.
Definition get_ug_to_av_codec (ug_codec : Z) : AVCodecID := ug_to_av_loop av_to_uv_map ug_codec.

(** [libav_codec_has_extradata] *)
Definition libav_codec_has_extradata (codec : Z) : bool := (codec =? HFYU)%Z || (codec =? FFV1)%Z.

(** ** Log level translation ([av_to_uv_log], [uv_to_av_log]) *)

(** [av_to_uv_log]: C division truncates towards zero. *)
Definition av_to_uv_log (level : Z) : Z :=
  let level := Z.quot level 8 in
  if (level <=? 0)%Z then level + 1
  else if (level <=? 3)%Z then level
  else level + 1.

Section LogLevels.
(** The UltraGrid log levels the translation refers to (defined in
    [debug.h], outside the sources). *)
Variable LOG_LEVEL_QUIET LOG_LEVEL_NOTICE : Z.

(** [uv_to_av_log] *)
Definition uv_to_av_log (level : Z) : Z :=
  let level := (level * 8)%Z in
  if (level =? 8 * LOG_LEVEL_QUIET)%Z then level - 8
  else if (level <=? 8 * LOG_LEVEL_NOTICE)%Z then level
  else level - 8.
End LogLevels.

(** ** Pixel format descriptors ([lavc_common.c]) *)

(** The fields of FFmpeg's [AVPixFmtDescriptor] the module reads. *)
Record AVPixFmtDescriptor := mk_pixdesc {
  log2_chroma_w : Z;
  log2_chroma_h : Z;
  pd_flags : Z;
  comp0_depth : Z
}.

(** FFmpeg's [AV_PIX_FMT_FLAG_HWACCEL] and [AV_PIX_FMT_FLAG_RGB]. *)
Definition AV_PIX_FMT_FLAG_HWACCEL : Z := 2 ^ 3.
Definition AV_PIX_FMT_FLAG_RGB : Z := 2 ^ 5.

(** UltraGrid's [struct pixfmt_desc]. *)
Record pixfmt_desc := mk_pixfmt_desc {
  pf_depth : Z;
  pf_subsampling : Z;
  pf_rgb : bool
}.

(** [av_pixfmt_get_subsampling], on the descriptor of the format. *)
Definition av_pixfmt_get_subsampling (pd : AVPixFmtDescriptor) : Z :=
  if (log2_chroma_w pd =? 0)%Z && (log2_chroma_h pd =? 0)%Z then 4440
  else if (log2_chroma_w pd =? 1)%Z && (log2_chroma_h pd =? 0)%Z then 4220
  else if (log2_chroma_w pd =? 1)%Z && (log2_chroma_h pd =? 1)%Z then 4200
  else 0.

(** [av_pixfmt_get_desc], on the descriptor of the format. *)
Definition av_pixfmt_get_desc (avd : AVPixFmtDescriptor) : pixfmt_desc :=
  mk_pixfmt_desc (comp0_depth avd) (av_pixfmt_get_subsampling avd)
    (negb (Z.land (pd_flags avd) AV_PIX_FMT_FLAG_RGB =? 0)%Z).

Section PixDesc.
(** [av_pix_fmt_desc_get]: [None] for a NULL descriptor. *)
Variable av_pix_fmt_desc_get : Z -> option AVPixFmtDescriptor.

(** [pixfmt_has_420_subsampling] *)
Definition pixfmt_has_420_subsampling (fmt : Z) : bool :=
  match av_pix_fmt_desc_get fmt with
  | Some d => (log2_chroma_w d =? 1)%Z && (log2_chroma_h d =? 1)%Z
  | None => false
  end.

(** [pixfmt_list_has_420_subsampling] over an [AV_PIX_FMT_NONE]-terminated
    array; [None] is the dereference of a NULL descriptor. *)
Fixpoint pixfmt_list_has_420_subsampling (fmts : list Z) : option bool :=
  match fmts with
  | [] => Some true
  | f :: rest =>
      if (f =? AV_PIX_FMT_NONE)%Z then Some true
      else if pixfmt_has_420_subsampling f then pixfmt_list_has_420_subsampling rest
      else match av_pix_fmt_desc_get f with
           | None => None
           | Some d =>
               if Z.land (pd_flags d) AV_PIX_FMT_FLAG_HWACCEL =? 0 then Some false
               else pixfmt_list_has_420_subsampling rest
           end
  end%Z.
End PixDesc.

(** ** [write_orig_format] *)

(** [format] of [write_orig_format]: [unsigned] arithmetic is modulo
    [2^32], [((desc.depth - 8) / 2) << 4U] is an [int] converted to
    [unsigned] by the [|], and the result is stored in a [uint8_t]. *)
Definition orig_format_byte (desc : pixfmt_desc) : Z :=
  let u32 (x : Z) := (x mod 2 ^ 32)%Z in
  let subs_a := u32 (Z.rem (Z.quot (pf_subsampling desc) 100) 10) in
  let subs_b := u32 (Z.rem (Z.quot (pf_subsampling desc) 10) 10) in
  let subs_v := u32 (subs_a - 1)%Z in
  let subs_h := if (subs_b =? 0)%Z then 0%Z else 1%Z in
  let rgb := Z.b2z (pf_rgb desc) in
  let hi := u32 (Z.shiftl (Z.quot (pf_depth desc - 8) 2) 4)%Z in
  (Z.lor (Z.lor (Z.lor hi (u32 (Z.shiftl subs_v 2))) (Z.shiftl subs_h 1)) rgb mod 2 ^ 8)%Z.

Section OrigFormat.
(** The SEI NAL prefixes of [write_orig_format] ([START_CODE_3B], the NAL
    header, the GUID length and [UG_ORIG_FORMAT_ISO_IEC_11578_GUID], all
    macros of other headers). *)
Variable sei_nal_prefix_h264 sei_nal_prefix_hevc : list Z.

(** [write_orig_format(compressed_frame, orig_pixfmt)] on the payload of
    tile 0 ([data_len] is its length), with [orig] the result of
    [get_pixfmt_desc(orig_pixfmt)]. *)
Definition write_orig_format (color_spec : Z) (data : list Z) (orig : pixfmt_desc) : list Z :=
  if negb (color_spec =? H264)%Z && negb (color_spec =? H265)%Z then data
  else
    let prefix := if (color_spec =? H264)%Z then sei_nal_prefix_h264 else sei_nal_prefix_hevc in
    (data ++ prefix ++ [orig_format_byte orig; 128%Z])%list.
End OrigFormat.

(** ** [configure_x264_x265]: the x265 parameter string *)

(** [to_string] of an [int]: decimal digits, with a minus sign. *)
Fixpoint decimal_digits (fuel : nat) (n : Z) (acc : string) : string :=
  match fuel with
  | O => acc
  | S fuel' =>
      let acc' := String (ascii_of_nat (48 + Z.to_nat (n mod 10))) acc in
      if (n <? 10)%Z then acc' else decimal_digits fuel' (n / 10)%Z acc'
  end.

Definition to_string_Z (n : Z) : string :=
  if (n <? 0)%Z then "-" ++ decimal_digits 64 (- n) "" else decimal_digits 64 n "".

(** The lambda [x265_params_append(key, val)]. *)
Definition x265_params_append (x265_params key val : string) : string :=
  if str_contains key x265_params then x265_params
  else x265_params ++ (if String.eqb x265_params "" then "" else ":") ++ key ++ "=" ++ val.

(** The [x265_params] part of [configure_x264_x265] for the encoder
    [codec_name] with [codec_ctx->gop_size]: the value given to the
    "x265-params" option (only for libx265) and the blacklist. *)
Definition configure_x264_x265_params (codec_name : string) (lavc_opts : gmap string string)
    (blacklist_opts : gset string) (gop_size periodic_intra : Z) : option string * gset string :=
  let '(x265_params, bl) :=
    match lavc_opts !! "x265-params" with
    | Some v => (v, {[ "x265-params" ]} ∪ blacklist_opts)
    | None => (EmptyString, blacklist_opts)
    end in
  let p1 := x265_params_append x265_params "keyint" (to_string_Z gop_size) in
  let p2 :=
    if negb (periodic_intra =? 0)%Z then
      (if String.eqb "libx264" codec_name || String.eqb "libx264rgb" codec_name then p1
       else if String.eqb "libx265" codec_name then
         x265_params_append (x265_params_append (x265_params_append p1 "intra-refresh" "1")
                               "constrained-intra" "1") "no-open-gop" "1"
       else p1)
    else p1 in
  (if String.eqb "libx265" codec_name then Some p2 else None, bl).

(** ** User supplied codec options ([set_codec_ctx_params]) *)

(** The loop "set user supplied parameters" over the entries of
    [lavc_opts] in the map's order: the [av_opt_set] calls made, in order,
    and the result ([false] at the first rejected option). [av_opt_set k v]
    tells whether the codec accepts the option. *)
Fixpoint set_user_opts (av_opt_set : string -> string -> bool) (items : list (string * string))
    (blacklist_opts : gset string) : list (string * string) * bool :=
  match items with
  | [] => ([], true)
  | (k, v) :: rest =>
      if decide (k ∈ blacklist_opts) then set_user_opts av_opt_set rest blacklist_opts
      else if av_opt_set k v then
        let '(calls, ok) := set_user_opts av_opt_set rest blacklist_opts in ((k, v) :: calls, ok)
      else ([(k, v)], false)
  end.

(** ** [apply_blacklist] *)

(** [formats.erase(std::find(formats.begin(), formats.end(), x))] when found. *)
Fixpoint erase_first (x : Z) (formats : list Z) : list Z :=
  match formats with
  | [] => []
  | y :: rest => if (y =? x)%Z then rest else y :: erase_first x rest
  end.

(** [apply_blacklist(formats, encoder_name)] (with [X2RGB10LE_PRESENT]);
    [x2rgb10le] is FFmpeg's [AV_PIX_FMT_X2RGB10LE]. *)
Definition apply_blacklist (x2rgb10le : Z) (formats : list Z) (encoder_name : string) : list Z :=
  if str_contains "nvenc" encoder_name then
    (if (length formats =? 1)%nat then formats else erase_first x2rgb10le formats)
  else formats.

(** ** [get_av_codec] *)

(** [AVCodec]: its name and codec id. *)
Record AVCodec := mk_avcodec {
  codec_name : string;
  codec_id : AVCodecID
}.

(** [codec_params[c].get_prefered_encoder], [None] when [c] is not in
    [codec_params] or has no preferred encoder. *)
Definition get_prefered_encoder (ug_codec : Z) : option (bool -> string) :=
  if (ug_codec =? H264)%Z then Some (fun (is_rgb : bool) => if is_rgb then "libx264rgb" else "libx264")
  else if (ug_codec =? H265)%Z then Some (fun (_ : bool) => "libx265")
  else if (ug_codec =? AV1)%Z then Some (fun (_ : bool) => "libsvtav1")
  else None.

Section GetAvCodec.
(** The FFmpeg lookups; [None] is a NULL codec. *)
Variable avcodec_find_encoder_by_name : string -> option AVCodec.
Variable avcodec_find_encoder : AVCodecID -> option AVCodec.

(** [get_av_codec(s, ug_codec, src_rgb)]: the codec and the value left in
    [*ug_codec]. *)
Definition get_av_codec (backend : string) (requested_codec_id : Z) (ug_codec : Z)
    (src_rgb : bool) : option AVCodec * Z :=
  if negb (String.eqb backend "") then
    match avcodec_find_encoder_by_name backend with
    | None => (None, ug_codec)
    | Some codec =>
        if negb (requested_codec_id =? VIDEO_CODEC_NONE)%Z &&
           negb (requested_codec_id =? get_av_to_ug_codec (codec_id codec))%Z
        then (None, ug_codec)
        else
          let ug := get_av_to_ug_codec (codec_id codec) in
          if (ug =? VIDEO_CODEC_NONE)%Z then (None, ug) else (Some codec, ug)
    end
  else
    match get_prefered_encoder ug_codec with
    | Some prefered => (avcodec_find_encoder_by_name (prefered src_rgb), ug_codec)
    | None => (avcodec_find_encoder (get_ug_to_av_codec ug_codec), ug_codec)
    end.
End GetAvCodec.

(** ** Encoder specific settings *)

(** A value given to [av_opt_set] / [check_av_opt_set]. *)
Inductive av_opt_val := OptInt (n : Z) | OptStr (s : string).

(** The option string of [set_forced_idr(codec_ctx, value)]: the single
    character ['0' + value] (its [assert(value <= 9)] holds at the call
    sites). *)
Definition forced_idr_val (value : Z) : string :=
  String (Ascii.ascii_of_N (Z.to_N ((48 + value) mod 256))) EmptyString.

(** [configure_svt] (FFmpeg newer than 59.21.100): the private options it
    sets, in order. *)
Definition configure_svt (codec_name : string) (desc : video_desc) : list (string * av_opt_val) :=
  [("forced-idr", OptStr (forced_idr_val (if String.eqb codec_name "libsvt_hevc" then 0 else 1)))] ++
  (if String.eqb "libsvt_hevc" codec_name then
     let tile_col_cnt := if (1024 <=? width desc)%Z then 4%Z else if (512 <=? width desc)%Z then 2%Z else 1%Z in
     let tile_row_cnt := if (256 <=? height desc)%Z then 4%Z else if (128 <=? height desc)%Z then 2%Z else 1%Z in
     [("la_depth", OptInt 0); ("pred_struct", OptInt 0)] ++
     (if (1 <? tile_col_cnt * tile_row_cnt)%Z && (256 <=? width desc)%Z && (64 <=? height desc)%Z then
        [("tile_row_cnt", OptInt tile_row_cnt); ("tile_col_cnt", OptInt tile_col_cnt);
         ("tile_slice_mode", OptInt 1); ("umv", OptInt 0)]
      else [])
   else if String.eqb "libsvtav1" codec_name then
     [("svtav1-params", OptStr "pred-struct=1:tile-columns=2:tile-rows=2")]
   else [])%list.

(** The branch taken by [setparam_h264_h265_av1]; [regex_match(name,
    regex(".*_amf"))] is [ends_with "_amf"], [".*nvenc.*"] is containment. *)
Inductive h26x_setparam := ConfigureAmf | ConfigureVaapi | ConfigureX264X265 | ConfigureNvenc
  | ConfigureQsv | ConfigureSvt | UnknownEncoder.

Definition setparam_h264_h265_av1 (codec_name : string) : h26x_setparam :=
  if ends_with "_amf" codec_name then ConfigureAmf
  else if ends_with "_vaapi" codec_name then ConfigureVaapi
  else if starts_with "libx264" codec_name || String.eqb codec_name "libx265" then ConfigureX264X265
  else if str_contains "nvenc" codec_name then ConfigureNvenc
  else if String.eqb codec_name "h264_qsv" || String.eqb codec_name "hevc_qsv" then ConfigureQsv
  else if starts_with "libsvt" codec_name then ConfigureSvt
  else UnknownEncoder.

(** [codec_params[ug_codec].set_param] is [setparam_h264_h265_av1] for
    H.264, HEVC and AV1; of the encoder specific functions only
    [configure_vaapi] changes [param->thread_mode] (to "no"), before
    [set_codec_thread_mode] reads it. *)
Definition thread_mode_after_set_param (ug_codec : Z) (codec_name : string) (thread_mode : string)
  : string :=
  if (ug_codec =? H264)%Z || (ug_codec =? H265)%Z || (ug_codec =? AV1)%Z then
    match setparam_h264_h265_av1 codec_name with
    | ConfigureVaapi => "no"
    | _ => thread_mode
    end
  else thread_mode.

(** ** Presets *)

Definition DONT_SET_PRESET : string := "dont_set_preset".
Definition DEFAULT_QSV_PRESET : string := "medium".

(** [get_h264_h265_preset] *)
Definition get_h264_h265_preset (enc_name : string) (width height : Z) (fps : Q) : string :=
  if String.eqb enc_name "libx264" || String.eqb enc_name "libx264rgb" then
    (if (width <=? 1920)%Z && (height <=? 1080)%Z && Qle_bool fps 30 then "veryfast" else "ultrafast")
  else if String.eqb enc_name "libx265" then "ultrafast"
  else if ends_with "_amf" enc_name then DONT_SET_PRESET
  else if str_contains "nvenc" enc_name then DONT_SET_PRESET
  else if ends_with "_qsv" enc_name then DEFAULT_QSV_PRESET
  else if ends_with "_vaapi" enc_name then DONT_SET_PRESET
  else EmptyString.

(** [get_av1_preset] *)
Definition get_av1_preset (enc_name : string) (width height : Z) (fps : Q) : string :=
  if String.eqb enc_name "libsvtav1" then
    (if (width <=? 1920)%Z && (height <=? 1080)%Z && Qle_bool fps 30 then "9" else "11")
  else EmptyString.

(** [codec_params[ug_codec].get_preset] *)
Definition get_preset (ug_codec : Z) : option (string -> Z -> Z -> Q -> string) :=
  if (ug_codec =? H264)%Z || (ug_codec =? H265)%Z then Some get_h264_h265_preset
  else if (ug_codec =? AV1)%Z then Some get_av1_preset
  else None.

Definition DEFAULT_NVENC_PRESET : string := "p4".
Definition FALLBACK_NVENC_PRESET : string := "llhq".

(** The "preset" value [configure_nvenc] sets ([None]: none):
    [DEFAULT_NVENC_PRESET], or [FALLBACK_NVENC_PRESET] when setting the
    option "tune" failed ([tune_ok] false), unless the user gave a preset. *)
Definition configure_nvenc_preset (tune_ok have_preset : bool) : option string :=
  if have_preset then None
  else Some (if tune_ok then DEFAULT_NVENC_PRESET else FALLBACK_NVENC_PRESET).

(** The "preset" values [set_codec_ctx_params] sets, in order, before the
    user options, with [have_preset] computed from [lavc_opts]: first the
    one of [codec_params[ug_codec].set_param] (of the encoder specific
    functions only [configure_nvenc], reached through
    [setparam_h264_h265_av1], sets one), then the one of the [get_preset]
    block. *)
Definition presets_set (tune_ok : bool) (lavc_opts : gmap string string) (ug_codec : Z)
    (codec_name : string) (desc : video_desc) : list string :=
  let have_preset := bool_decide (is_Some (lavc_opts !! "preset")) in
  let from_set_param :=
    if (ug_codec =? H264)%Z || (ug_codec =? H265)%Z || (ug_codec =? AV1)%Z then
      match setparam_h264_h265_av1 codec_name with
      | ConfigureNvenc =>
          match configure_nvenc_preset tune_ok have_preset with Some p => [p] | None => [] end
      | _ => []
      end
    else [] in
  let from_get_preset :=
    if have_preset then []
    else
      let preset := match get_preset ug_codec with
                    | Some f => f codec_name (width desc) (height desc) (fps desc)
                    | None => EmptyString
                    end in
      if negb (String.eqb preset "") && negb (String.eqb preset DONT_SET_PRESET) then [preset]
      else [] in
  from_set_param ++ from_get_preset.

(** A value as the user escapes it in the option string: every [:] is
    written [\:]. *)
Fixpoint escape_colons (v : string) : string :=
  match v with
  | EmptyString => EmptyString
  | String c v' => if Ascii.eqb c ":" then String "\" (String ":" (escape_colons v'))
                   else String c (escape_colons v')
  end.

(** The same value after [replace_all(fmt, ESCAPED_COLON, DELDEL)]. *)
Fixpoint colons_to_deldel (v : string) : string :=
  match v with
  | EmptyString => EmptyString
  | String c v' => if Ascii.eqb c ":" then String DEL (String DEL (colons_to_deldel v'))
                   else String c (colons_to_deldel v')
  end.

(** ** A concrete environment for the examples *)

(** [get_codec_from_name] knowing only "H.264"; the unit parsers and [atof]
    reading a decimal integer. *)
Definition ex_get_codec_from_name (name : string) : Z :=
  if String.eqb name "H.264" then H264 else VIDEO_CODEC_NONE.
Definition ex_unit_evaluate (s : string) : Z := atoi s.
Definition ex_unit_evaluate_dbl (s : string) : dbl := Fin (inject_Z (atoi s)).
Definition ex_atof (s : string) : dbl := Fin (inject_Z (atoi s)).

Definition ex_desc_1080p25 : video_desc := mk_desc 1920 1080 2 25 0 1.

(** A module state configured for [ex_desc_1080p25] with the default request. *)
Definition ex_state : lavc_state :=
  mk_state ex_desc_1080p25 (initial_request 8)
    (mk_desc 1920 1080 H264 25 0 1) 0 0.

(** A freshly created module state: nothing configured yet. *)
Definition ex_fresh_state : lavc_state :=
  mk_state zero_desc (initial_request 8) zero_desc 0 0.

(** A descriptor table: format 0 is 4:2:0, format 1 is 4:4:4, format 2 a
    hardware format. *)
Definition ex_pix_desc (f : Z) : option AVPixFmtDescriptor :=
  if (f =? 0)%Z then Some (mk_pixdesc 1 1 0 8)
  else if (f =? 1)%Z then Some (mk_pixdesc 0 0 0 8)
  else if (f =? 2)%Z then Some (mk_pixdesc 0 0 AV_PIX_FMT_FLAG_HWACCEL 8)
  else None.

(** The pixel format v210: 10 bits, 4:2:2, YUV. *)
Definition ex_pixfmt_v210 : pixfmt_desc := mk_pixfmt_desc 10 4220 false.

(** [avcodec_find_encoder_by_name] knowing libx265 and libsvtav1. *)
Definition ex_find_by_name (name : string) : option AVCodec :=
  if String.eqb name "libx265" then Some (mk_avcodec "libx265" AV_CODEC_ID_HEVC)
  else if String.eqb name "libsvtav1" then Some (mk_avcodec "libsvtav1" AV_CODEC_ID_AV1)
  else None.

(** ** Lemmas on the model *)

(** *** Binary64 *)

Lemma digits2_pos_log2 (p : positive) : Zpos (digits2_pos p) = (Z.log2 (Zpos p) + 1)%Z.
Proof.
  assert (Hs : forall q, digits2_pos q = Pos.size q) by (induction q; simpl; congruence).
  rewrite Hs. destruct p; simpl; try lia; rewrite Pos2Z.inj_succ; lia.
Qed.

Lemma round_aux_exact (s : bool) (m : positive) (e : Z) :
  Zpos (digits2_pos m) = 53%Z -> (- 1074 <= e <= 971)%Z ->
  binary_round_aux 53 1024 s (Zpos m) e loc_Exact = S754_finite s m e.
Proof.
  intros Hm He. unfold binary_round_aux, shr_fexp. cbn [Zdigits2]. rewrite Hm.
  replace (fexp 53 1024 (53 + e) - e)%Z with 0%Z by (unfold fexp, emin; lia).
  cbn [shr shr_record_of_loc shr_m loc_of_shr_record round_nearest_even Zdigits2].
  rewrite Hm.
  replace (fexp 53 1024 (53 + e) - e)%Z with 0%Z by (unfold fexp, emin; lia).
  cbn [shr shr_m]. replace (e <=? 1024 - 53)%Z with true by (symmetry; apply Z.leb_le; lia).
  reflexivity.
Qed.

Lemma iter_xO_mul (p k : positive) : Zpos (Pos.iter xO p k) = (Zpos p * 2 ^ Zpos k)%Z.
Proof.
  rewrite <- Z.shiftl_mul_pow2 by lia. unfold Z.shiftl.
  apply (Pos.iter_swap_gen _ _ Zpos xO (Z.mul 2)). reflexivity.
Qed.

(** Integers up to 2^53 are doubles: the conversion there and back is exact. *)
Lemma double_of_Z_exact (z : Z) : (0 <= z <= 2 ^ 53)%Z -> double_to_int (double_of_Z z) = z.
Proof.
  intros Hz. destruct (Z.eq_dec z (2 ^ 53)%Z) as [-> | Hne]; [vm_compute; reflexivity |].
  destruct z as [| p | p]; [reflexivity | | lia].
  unfold double_of_Z, binary_normalize, binary_round.
  pose proof (digits2_pos_log2 p) as Hd.
  assert (Hl : (0 <= Z.log2 (Zpos p) < 53)%Z).
  { split; [apply Z.log2_nonneg | apply Z.log2_lt_pow2; lia]. }
  replace (fexp 53 1024 (Zpos (digits2_pos p) + 0))%Z with (Zpos (digits2_pos p) - 53)%Z
    by (unfold fexp, emin; lia).
  unfold shl_align.
  destruct (Zpos (digits2_pos p) - 53 - 0)%Z eqn:E.
  - rewrite round_aux_exact by lia. reflexivity.
  - lia.
  - assert (Hk : Zpos p0 = (53 - Zpos (digits2_pos p))%Z) by lia.
    rewrite round_aux_exact.
    + unfold double_to_int. replace (0 <=? Zpos (digits2_pos p) - 53)%Z with false
        by (symmetry; apply Z.leb_gt; lia).
      rewrite iter_xO_mul, Z.shiftr_div_pow2 by lia.
      replace (- (Zpos (digits2_pos p) - 53))%Z with (Zpos p0) by lia.
      apply Z.div_mul. apply Z.pow_nonzero; lia.
    + rewrite digits2_pos_log2, iter_xO_mul, Z.log2_mul_pow2 by lia. lia.
    + lia.
Qed.

Lemma parse_items_prefix_fail gcn ue ued af (pre post : list string) (t : string)
    (r : lavc_request) (h : bool) (r1 : lavc_request) (h1 : bool) (r2 : lavc_request) :
  parse_items gcn ue ued af r h pre = ItemNext r1 h1 ->
  parse_item gcn ue ued af r1 h1 t = ItemFail r2 ->
  parse_items gcn ue ued af r h (pre ++ t :: post) = ItemFail r2.
Proof.
  revert r h. induction pre as [| item pre IH]; intros r h Hpre Ht; simpl in *.
  - injection Hpre as -> ->. now rewrite Ht.
  - destruct (parse_item gcn ue ued af r h item) eqn:E; try discriminate.
    now apply IH.
Qed.

Lemma check_messages_zero_desc gcn ue ued af hlp kp (msgs : list string) (s : lavc_state) :
  msgs <> [] ->
  libavcodec_check_messages gcn ue ued af hlp kp s msgs = None \/
  exists s' resps, libavcodec_check_messages gcn ue ued af hlp kp s msgs = Some (s', resps) /\
              saved_desc s' = zero_desc.
Proof.
  revert s. induction msgs as [| m rest IH]; intros s Hne; [congruence |].
  simpl. destruct (parse_fmt gcn ue ued af hlp kp (req s) m) as [ret r' |]; [| now left].
  destruct rest as [| m' rest'].
  - right. simpl. eauto.
  - destruct (IH (set_saved_desc (set_req s r') zero_desc)) as [Hn | (s' & rs & Hs & Hz)];
      [discriminate | |].
    + left. now rewrite Hn.
    + right. rewrite Hs. eauto.
Qed.

Lemma desc_eq_refl (d : video_desc) : video_desc_eq_excl_tile_count d d = true.
Proof.
  unfold video_desc_eq_excl_tile_count.
  rewrite !Z.eqb_refl. rewrite (proj2 (Qeq_bool_iff _ _) (Qeq_refl _)). reflexivity.
Qed.

Lemma desc_eq_true (a b : video_desc) :
  video_desc_eq_excl_tile_count a b = true <->
  width a = width b /\ height a = height b /\ color_spec a = color_spec b /\
  (fps a == fps b)%Q /\ interlacing a = interlacing b.
Proof.
  unfold video_desc_eq_excl_tile_count.
  rewrite !andb_true_iff, !Z.eqb_eq, Qeq_bool_iff. tauto.
Qed.

Lemma desc_eq_sym_trans (a b c : video_desc) :
  video_desc_eq_excl_tile_count a b = true ->
  video_desc_eq_excl_tile_count a c = true ->
  video_desc_eq_excl_tile_count b c = true.
Proof.
  rewrite !desc_eq_true. intros (? & ? & ? & Hf1 & ?) (? & ? & ? & Hf2 & ?).
  repeat split; try congruence.
  now rewrite <- Hf1.
Qed.

(** ** C1: reconfiguration with an invalid configuration string *)

(** C1 (counterexample): the message "gop=50:subsampling=411" fails to
    parse and is answered with an error, but the live request is not left
    unchanged: the GOP size became 50 and the rejected subsampling 4110 was
    stored. *)
Lemma C1_failed_reconfig_changes_request :
  exists s',
    libavcodec_check_messages ex_get_codec_from_name ex_unit_evaluate ex_unit_evaluate_dbl
      ex_atof false false ex_state ["gop=50:subsampling=411"] = Some (s', [RESPONSE_INT_SERV_ERR]) /\
    requested_gop (req s') = 50%Z /\ subsampling (req_conv_prop (req s')) = 4110%Z /\
    req s' <> req ex_state.
Proof.
  eexists. split; [vm_compute; reflexivity |].
  split; [reflexivity |]. split; [reflexivity |].
  vm_compute. congruence.
Qed.

(** C1 (amended): when the tokens of a reconfiguration message before a
    token [t] are accepted and [t] is rejected, the handler answers with an
    error and the live request keeps what the accepted tokens and [t]
    itself wrote into it (the tokens after [t] are not applied); the cached
    stream description is zeroed. *)
Theorem C1_failed_reconfig_keeps_partial_parse gcn ue ued af hlp kp (s : lavc_state)
    (m : string) (pre post : list string) (t : string) (r1 : lavc_request) (h1 : bool)
    (r2 : lavc_request) :
  strtok_colon (replace_escaped_colon m) = (pre ++ t :: post)%list ->
  parse_items gcn ue ued af (req s) false pre = ItemNext r1 h1 ->
  parse_item gcn ue ued af r1 h1 t = ItemFail r2 ->
  libavcodec_check_messages gcn ue ued af hlp kp s [m] =
    Some (set_saved_desc (set_req s r2) zero_desc, [RESPONSE_INT_SERV_ERR]).
Proof.
  intros Htok Hpre Ht. simpl. unfold parse_fmt. rewrite Htok.
  rewrite (parse_items_prefix_fail gcn ue ued af pre post t (req s) false r1 h1 r2 Hpre Ht).
  reflexivity.
Qed.

Lemma C1_failed_reconfig_keeps_partial_parse_witness :
  strtok_colon (replace_escaped_colon "gop=50:subsampling=411") = (["gop=50"] ++ "subsampling=411" :: [])%list /\
  libavcodec_check_messages ex_get_codec_from_name ex_unit_evaluate ex_unit_evaluate_dbl ex_atof
    false false ex_state ["gop=50:subsampling=411"] =
  Some (set_saved_desc (set_req ex_state
          (set_conv_prop (set_gop (req ex_state) 50) (set_subsampling (req_conv_prop (req ex_state)) 4110)))
          zero_desc, [RESPONSE_INT_SERV_ERR]).
Proof.
  split; [vm_compute; reflexivity |].
  apply (C1_failed_reconfig_keeps_partial_parse ex_get_codec_from_name ex_unit_evaluate
           ex_unit_evaluate_dbl ex_atof false false ex_state "gop=50:subsampling=411"
           ["gop=50"] [] "subsampling=411" (set_gop (req ex_state) 50) false).
  - vm_compute. reflexivity.
  - vm_compute. reflexivity.
  - vm_compute. reflexivity.
Defined.

(** ** C10: a reconfiguration message always zeroes the saved description *)

(** C10: processing one or more reconfiguration messages, whatever they
    parse to, either ends the process (an uncaught exception in
    [parse_fmt]) or leaves the saved stream description zeroed, so that the
    frame during which they are processed is reconfigured whenever its
    width is not 0. *)
Theorem C10_messages_force_reconfiguration gcn ue ued af hlp kp (s : lavc_state)
    (msgs : list string) :
  msgs <> [] ->
  libavcodec_check_messages gcn ue ued af hlp kp s msgs = None \/
  exists s' resps,
    libavcodec_check_messages gcn ue ued af hlp kp s msgs = Some (s', resps) /\
    saved_desc s' = zero_desc /\
    forall d : video_desc, width d <> 0%Z -> tile_reconfigures gcn ue ued af hlp kp s msgs d = true.
Proof.
  intros Hne.
  destruct (check_messages_zero_desc gcn ue ued af hlp kp msgs s Hne) as [Hn | (s' & rs & Hs & Hz)];
    [now left |].
  right. exists s', rs. repeat split; [exact Hs | exact Hz |].
  intros d Hw. unfold tile_reconfigures. rewrite Hs, Hz.
  unfold video_desc_eq_excl_tile_count. simpl.
  destruct (width d =? 0)%Z eqn:E; [apply Z.eqb_eq in E; contradiction | reflexivity].
Qed.

Lemma C10_messages_force_reconfiguration_witness :
  libavcodec_check_messages ex_get_codec_from_name ex_unit_evaluate ex_unit_evaluate_dbl ex_atof
    false false ex_state ["gop=50:subsampling=411"] = None \/
  exists s' resps,
    libavcodec_check_messages ex_get_codec_from_name ex_unit_evaluate ex_unit_evaluate_dbl ex_atof
      false false ex_state ["gop=50:subsampling=411"] = Some (s', resps) /\
    saved_desc s' = zero_desc /\
    forall d : video_desc, width d <> 0%Z ->
      tile_reconfigures ex_get_codec_from_name ex_unit_evaluate ex_unit_evaluate_dbl ex_atof
        false false ex_state ["gop=50:subsampling=411"] d = true.
Proof.
  apply (C10_messages_force_reconfiguration ex_get_codec_from_name ex_unit_evaluate
           ex_unit_evaluate_dbl ex_atof false false ex_state ["gop=50:subsampling=411"]).
  discriminate.
Defined.

(** ** C6: equal descriptions (tile count aside) do not reconfigure *)

(** C6 (counterexample): when configuring for the first frame fails, the
    second frame, with the same description but another tile count, is
    reconfigured again. *)
Lemma C6_failed_configure_reconfigures_again :
  exists s1,
    compress_tile_prologue ex_get_codec_from_name ex_unit_evaluate ex_unit_evaluate_dbl ex_atof
      false false ex_fresh_state [] ex_desc_1080p25 None = TileNoOutput s1 /\
    video_desc_eq_excl_tile_count ex_desc_1080p25 (mk_desc 1920 1080 2 25 0 2) = true /\
    tile_reconfigures ex_get_codec_from_name ex_unit_evaluate ex_unit_evaluate_dbl ex_atof
      false false s1 [] (mk_desc 1920 1080 2 25 0 2) = true.
Proof.
  eexists. split; [vm_compute; reflexivity |]. split; vm_compute; reflexivity.
Qed.

(** C6 (amended): if the first frame, with description [d1], leaves the
    encoder configured (no reconfiguration was needed or [configure_with]
    succeeded) and no reconfiguration message is processed before the
    second frame, a second frame whose description [d2] equals [d1] in
    every field but the tile count is not reconfigured. *)
Theorem C6_equal_desc_no_reconfiguration gcn ue ued af hlp kp (s : lavc_state)
    (msgs : list string) (d1 d2 : video_desc) (configure_result : option Z)
    (s1 : lavc_state) (reconfigured : bool) :
  video_desc_eq_excl_tile_count d1 d2 = true ->
  compress_tile_prologue gcn ue ued af hlp kp s msgs d1 configure_result = TileReady s1 reconfigured ->
  tile_reconfigures gcn ue ued af hlp kp s1 [] d2 = false /\
  forall configure_result2 : option Z,
    compress_tile_prologue gcn ue ued af hlp kp s1 [] d2 configure_result2 = TileReady s1 false.
Proof.
  intros H12 Hfirst.
  assert (Hsaved : video_desc_eq_excl_tile_count d1 (saved_desc s1) = true).
  { unfold compress_tile_prologue in Hfirst.
    destruct (libavcodec_check_messages gcn ue ued af hlp kp s msgs) as [[s0 rs] |];
      [| discriminate].
    destruct (video_desc_eq_excl_tile_count d1 (saved_desc s0)) eqn:E.
    - injection Hfirst as <- _. exact E.
    - destruct configure_result as [ug |]; [| discriminate].
      injection Hfirst as <- _. apply desc_eq_refl. }
  assert (H2 : video_desc_eq_excl_tile_count d2 (saved_desc s1) = true)
    by (eapply desc_eq_sym_trans; eassumption).
  split.
  - unfold tile_reconfigures. simpl. now rewrite H2.
  - intros cr. unfold compress_tile_prologue. simpl. now rewrite H2.
Qed.

Lemma C6_equal_desc_no_reconfiguration_witness :
  tile_reconfigures ex_get_codec_from_name ex_unit_evaluate ex_unit_evaluate_dbl ex_atof
    false false (configure_with_success ex_fresh_state ex_desc_1080p25 H264) []
    (mk_desc 1920 1080 2 25 0 2) = false /\
  forall configure_result2 : option Z,
    compress_tile_prologue ex_get_codec_from_name ex_unit_evaluate ex_unit_evaluate_dbl ex_atof
      false false (configure_with_success ex_fresh_state ex_desc_1080p25 H264) []
      (mk_desc 1920 1080 2 25 0 2) configure_result2 =
    TileReady (configure_with_success ex_fresh_state ex_desc_1080p25 H264) false.
Proof.
  apply (C6_equal_desc_no_reconfiguration ex_get_codec_from_name ex_unit_evaluate
           ex_unit_evaluate_dbl ex_atof false false ex_fresh_state [] ex_desc_1080p25
           (mk_desc 1920 1080 2 25 0 2) (Some H264)
           (configure_with_success ex_fresh_state ex_desc_1080p25 H264) true).
  - vm_compute. reflexivity.
  - vm_compute. reflexivity.
Defined.

(** ** C2: which match [get_first_matching_pix_fmt] picks *)

(** C2 (counterexample): with candidates [1; 2] and backend list [2; 1],
    the first backend entry that is a candidate is 2, but format 1 is
    returned. *)
Lemma C2_candidate_order_wins :
  fst (get_first_matching_pix_fmt [1; 2]%Z (Some [2; 1; AV_PIX_FMT_NONE]%Z)) = 1%Z /\
  hd AV_PIX_FMT_NONE (filter (fun b => existsb (Z.eqb b) [1; 2]%Z) [2; 1]%Z) = 2%Z.
Proof. split; reflexivity. Qed.

(** C2 (amended): scanning from the iterator, the format returned is the
    first candidate, in the candidate list's order, that occurs in the
    backend's list (before its [AV_PIX_FMT_NONE] terminator); the iterator
    moves just past it. With no such candidate, [AV_PIX_FMT_NONE] is
    returned and the iterator reaches the end. *)
Theorem C2_first_candidate_in_backend_list (C B : list Z) :
  let '(f, rest) := get_first_matching_pix_fmt C (Some B) in
  (f = AV_PIX_FMT_NONE /\ rest = [] /\ forall c, In c C -> ~ In c (take_until_none B)) \/
  (exists pre, C = (pre ++ f :: rest)%list /\ In f (take_until_none B) /\
               forall c, In c pre -> ~ In c (take_until_none B)).
Proof.
  induction C as [| c C IH]; simpl.
  - left. repeat split. intros c [].
  - destruct (existsb (Z.eqb c) (take_until_none B)) eqn:E.
    + right. exists []. split; [reflexivity |]. split; [| intros ? []].
      apply existsb_exists in E as (x & Hx & Heq). apply Z.eqb_eq in Heq. now subst.
    + destruct (get_first_matching_pix_fmt C (Some B)) as [f rest].
      assert (Hc : ~ In c (take_until_none B)).
      { intros Hin. assert (existsb (Z.eqb c) (take_until_none B) = true)
          by (apply existsb_exists; exists c; split; [exact Hin | apply Z.eqb_refl]).
        congruence. }
      destruct IH as [(Hf & Hr & Hall) | (pre & HC & Hin & Hpre)].
      * left. repeat split; try assumption. intros x [<- | Hx]; [exact Hc | now apply Hall].
      * right. exists (c :: pre). rewrite HC. split; [reflexivity |]. split; [exact Hin |].
        intros x [<- | Hx]; [exact Hc | now apply Hpre].
Qed.

(** ** C9: the negotiation loop tries each candidate at most once *)

Lemma get_first_matching_suffix (l : list Z) (B : option (list Z)) :
  let '(f, it') := get_first_matching_pix_fmt l B in
  f = AV_PIX_FMT_NONE \/ exists pre, l = (pre ++ f :: it')%list.
Proof.
  destruct B as [B |]; [| destruct l; simpl; now left].
  induction l as [| c l IH]; cbn -[AV_PIX_FMT_NONE]; [now left |].
  destruct (existsb (Z.eqb c) (take_until_none B)).
  - right. now exists [].
  - destruct (get_first_matching_pix_fmt l (Some B)) as [f it'].
    destruct IH as [-> | (pre & ->)]; [now left | right]. now exists (c :: pre).
Qed.

Lemma pix_fmt_loop_trials_sublist (fuel k : nat) (open : nat -> Z -> option Z)
    (it : list Z) (B : option (list Z)) :
  snd (pix_fmt_loop fuel k open it B) `sublist_of` it.
Proof.
  revert k it. induction fuel as [| fuel IH]; intros k it; simpl.
  - apply sublist_nil_l.
  - pose proof (get_first_matching_suffix it B) as Hs.
    destruct (get_first_matching_pix_fmt it B) as [f it'].
    destruct (f =? AV_PIX_FMT_NONE)%Z eqn:Ef; [apply sublist_nil_l |].
    destruct Hs as [-> | (pre & ->)]; [discriminate |].
    apply sublist_inserts_l.
    destruct (open k f) as [g |].
    + simpl. apply sublist_skip, sublist_nil_l.
    + specialize (IH (S k) it').
      destruct (pix_fmt_loop fuel (S k) open it' B) as [res trials].
      simpl in *. now apply sublist_skip.
Qed.

Lemma pix_fmt_loop_fuel (fuel1 fuel2 k : nat) (open : nat -> Z -> option Z)
    (it : list Z) (B : option (list Z)) :
  (length it < fuel1)%nat -> (length it < fuel2)%nat ->
  pix_fmt_loop fuel1 k open it B = pix_fmt_loop fuel2 k open it B.
Proof.
  revert fuel2 k it. induction fuel1 as [| fuel1 IH]; intros fuel2 k it H1 H2; [lia |].
  destruct fuel2 as [| fuel2]; [lia |]. simpl.
  pose proof (get_first_matching_suffix it B) as Hs.
  destruct (get_first_matching_pix_fmt it B) as [f it'].
  destruct (f =? AV_PIX_FMT_NONE)%Z eqn:Ef; [reflexivity |].
  destruct Hs as [-> | (pre & Hit)]; [discriminate |].
  destruct (open k f); [reflexivity |].
  assert (length it' < length it)%nat by (rewrite Hit, length_app; simpl; lia).
  rewrite (IH fuel2 (S k) it') by lia. reflexivity.
Qed.

(** C9: for a candidate list [C], the loop of [configure_with] performs at
    most [length C] trial opens, the formats it tries form a subsequence of
    [C] (each candidate position is tried at most once, the iterator never
    goes back), so with distinct candidates no format is tried twice; and it
    ends within [length C + 1] iterations (more fuel changes nothing). *)
Theorem C9_negotiation_tries_each_candidate_once (open : nat -> Z -> option Z)
    (C : list Z) (B : option (list Z)) :
  let trials := snd (configure_with_pix_fmt open C B) in
  (length trials <= length C)%nat /\ trials `sublist_of` C /\ (NoDup C -> NoDup trials) /\
  forall fuel, (length C < fuel)%nat ->
    pix_fmt_loop fuel 0 open C B = configure_with_pix_fmt open C B.
Proof.
  pose proof (pix_fmt_loop_trials_sublist (S (length C)) 0 open C B) as Hsub.
  simpl. unfold configure_with_pix_fmt. repeat split.
  - now apply sublist_length.
  - exact Hsub.
  - intros Hnd. eapply sublist_NoDup; eassumption.
  - intros fuel Hf. apply pix_fmt_loop_fuel; lia.
Qed.

(** ** C3 and C7: the quality policy *)

Definition ex_ctx : codec_ctx := mk_ctx false (-1) (-1) 0 None None None None.

(** C3 (counterexample): "cqp=10:bitrate=2M" for libx264 selects constant
    QP and still assigns the bit rate 2000000 to the context. *)
Lemma C3_cqp_with_bitrate_sets_bitrate :
  let r := set_bitrate (set_cqp_req (initial_request 8) 10) 2000000 in
  select_quality_mode "libx264" r = QM_CQP /\
  bit_rate (set_codec_ctx_quality "libx264" ex_ctx r ex_desc_1080p25 H264) = Some 2000000%Z.
Proof. split; vm_compute; reflexivity. Qed.

(** C3 (amended): with an explicit CQP ([requested_cqp >= 0]) the tuner
    selects constant-QP mode (QSCALE flag set, no CRF) and computes no
    target bitrate; a bit rate is assigned to the context exactly when an
    explicit bitrate ([requested_bitrate > 0]) was requested, and it is that
    bitrate converted through [double] (so the requested one itself up to
    2^53). *)
Theorem C3_cqp_mode (codec_name : string) (ctx : codec_ctx) (r : lavc_request)
    (desc : video_desc) (ug_codec : Z) :
  (0 <= requested_cqp r)%Z ->
  let ctx' := set_codec_ctx_quality codec_name ctx r desc ug_codec in
  select_quality_mode codec_name r = QM_CQP /\ flag_qscale ctx' = true /\
  opt_crf ctx' = opt_crf ctx /\
  bit_rate ctx' = (if (0 <? requested_bitrate r)%Z
                   then Some (double_to_int (double_of_Z (requested_bitrate r)))
                   else bit_rate ctx) /\
  ((0 < requested_bitrate r <= 2 ^ 53)%Z -> bit_rate ctx' = Some (requested_bitrate r)).
Proof.
  intros Hcqp ctx'.
  assert (Hm : select_quality_mode codec_name r = QM_CQP).
  { unfold select_quality_mode. apply Z.leb_le in Hcqp. now rewrite Hcqp. }
  assert (Hb : bit_rate ctx' = (if (0 <? requested_bitrate r)%Z
                                then Some (double_to_int (double_of_Z (requested_bitrate r)))
                                else bit_rate ctx)).
  { subst ctx'. unfold set_codec_ctx_quality. rewrite Hm.
    unfold target_bitrate.
    destruct (0 <? requested_bitrate r)%Z; simpl;
      unfold set_cqp;
      destruct (String.eqb codec_name "mjpeg"); [| destruct (str_contains "_qsv" codec_name) | | destruct (str_contains "_qsv" codec_name)];
      reflexivity. }
  assert (Hf : flag_qscale ctx' = true /\ opt_crf ctx' = opt_crf ctx).
  { subst ctx'. unfold set_codec_ctx_quality. rewrite Hm.
    destruct (0 <? requested_bitrate r)%Z; simpl;
      unfold set_cqp;
      destruct (String.eqb codec_name "mjpeg"); [| destruct (str_contains "_qsv" codec_name) | | destruct (str_contains "_qsv" codec_name)];
      split; reflexivity. }
  destruct Hf as [Hf1 Hf2].
  split; [exact Hm |]. split; [exact Hf1 |]. split; [exact Hf2 |]. split; [exact Hb |].
  intros Hr. rewrite Hb. replace (0 <? requested_bitrate r)%Z with true by (symmetry; apply Z.ltb_lt; lia).
  rewrite double_of_Z_exact by lia. reflexivity.
Qed.

Lemma C3_cqp_mode_witness :
  (0 <= requested_cqp (set_bitrate (set_cqp_req (initial_request 8) 10) 2000000))%Z /\
  let r := set_bitrate (set_cqp_req (initial_request 8) 10) 2000000 in
  let ctx' := set_codec_ctx_quality "libx264" ex_ctx r ex_desc_1080p25 H264 in
  select_quality_mode "libx264" r = QM_CQP /\ flag_qscale ctx' = true /\
  opt_crf ctx' = opt_crf ex_ctx /\
  bit_rate ctx' = (if (0 <? requested_bitrate r)%Z
                   then Some (double_to_int (double_of_Z (requested_bitrate r)))
                   else bit_rate ex_ctx) /\
  ((0 < requested_bitrate r <= 2 ^ 53)%Z -> bit_rate ctx' = Some (requested_bitrate r)).
Proof.
  split; [vm_compute; discriminate |].
  apply (C3_cqp_mode "libx264" ex_ctx (set_bitrate (set_cqp_req (initial_request 8) 10) 2000000)
           ex_desc_1080p25 H264).
  vm_compute. discriminate.
Defined.




(** ** C4: thread mode letters *)

Lemma ascii_toupper_not_n (c : ascii) : Ascii.eqb (ascii_toupper c) "n" = false.
Proof. destruct c as [[] [] [] [] [] [] [] []]; vm_compute; reflexivity. Qed.

Lemma thread_mode_letters_nonneg (s : string) (t : Z) :
  (0 <= t)%Z -> (0 <= thread_mode_letters s t)%Z.
Proof.
  revert t. induction s as [| c s IH]; intros t Ht; simpl; [exact Ht |].
  rewrite ascii_toupper_not_n. apply IH.
  destruct (Ascii.eqb (ascii_toupper c) "F"); [apply Z.lor_nonneg; unfold FF_THREAD_FRAME; lia |].
  destruct (Ascii.eqb (ascii_toupper c) "S"); [apply Z.lor_nonneg; unfold FF_THREAD_SLICE; lia |].
  exact Ht.
Qed.

(** C4 (code bug): the letters are upper-cased before the [switch], whose
    force-none label is the lower-case ['n']; so no thread-mode string
    yields the force-none type (-1): "n" and "N" are both reported as an
    unknown mode and leave the automatic choice (slice threading on a codec
    that has it), while 'f'/'s' do behave as 'F'/'S'. *)
Theorem C4_force_none_unreachable :
  (forall s : string,
     match parse_thread_mode s with Some (_, t) => (0 <= t)%Z | None => True end) /\
  parse_thread_mode "n" = Some ((-1)%Z, 0%Z) /\ parse_thread_mode "N" = Some ((-1)%Z, 0%Z) /\
  parse_thread_mode "4fs" = parse_thread_mode "4FS" /\
  set_codec_thread_mode AV_CODEC_CAP_SLICE_THREADS "libx264" 8 0 1 "n" = Some (FF_THREAD_SLICE, 8%Z).
Proof.
  split.
  - intros s. unfold parse_thread_mode.
    destruct (stoi s) as [v e | |]; try exact I; apply thread_mode_letters_nonneg; lia.
  - repeat split; vm_compute; reflexivity.
Qed.

(** ** C8: QSV rate-control modes *)

Definition ex_qsv : qsv_ctx := mk_qsv 2000000 0 false 0.

(** C8 (counterexample): "rc=CBR" is not one of the five lower-case names,
    yet it is accepted (as cbr) and the process goes on. *)
Lemma C8_upper_case_rc_accepted :
  configure_qsv_rc ex_qsv (<["rc" := "CBR"]> ∅) ∅ =
  QsvConfigured (mk_qsv 2000000 2000000 false 0) {[ "rc" ]}.
Proof. vm_compute. reflexivity. Qed.

(** C8 (amended): the rate-control mode is the "rc" option (consumed, i.e.
    blacklisted) or "vbr"; exactly "help" ends the process with status 0;
    the process ends with status 1 ("please report") exactly when the mode
    is neither "help" nor, ignoring case, one of cbr, cqp, icq, qvbr, vbr. *)
Theorem C8_qsv_rc_modes (ctx : qsv_ctx) (opts : gmap string string) (bl : gset string) :
  let rc := fst (qsv_rc_of opts bl) in
  (configure_qsv_rc ctx opts bl = QsvExit 0 <-> rc = "help") /\
  (configure_qsv_rc ctx opts bl = QsvExit 1 <->
     rc <> "help" /\ eq_ci rc "cbr" = false /\ eq_ci rc "cqp" = false /\
     eq_ci rc "icq" = false /\ eq_ci rc "qvbr" = false /\ eq_ci rc "vbr" = false).
Proof.
  simpl. unfold configure_qsv_rc, exit_uv.
  destruct (qsv_rc_of opts bl) as [rc bl']. simpl.
  destruct (String.eqb rc "help") eqn:Eh.
  - apply String.eqb_eq in Eh. subst rc. vm_compute. split; split; intros H; try congruence.
    destruct H as [H _]. congruence.
  - apply String.eqb_neq in Eh.
    destruct (eq_ci rc "cbr"), (eq_ci rc "cqp"), (eq_ci rc "icq"), (eq_ci rc "qvbr"),
      (eq_ci rc "vbr"), (0 <? q_bit_rate ctx)%Z; simpl;
      split; split; intros H; try congruence; try tauto; intuition discriminate.
Qed.

(** ** C5: the performance monitor fires at most once *)

Lemma monitor_run_disabled (s : lavc_state) (ds : list Z) :
  (10 * mov_window <= mov_avg_frames s)%Z -> monitor_run s ds = (s, repeat false (length ds)).
Proof.
  intros H. induction ds as [| d ds IH]; simpl; [reflexivity |].
  unfold check_duration at 1. apply Z.leb_le in H. rewrite H. rewrite IH. reflexivity.
Qed.

Lemma count_true_repeat_false (n : nat) : count_true (repeat false n) = 0%nat.
Proof. induction n; simpl; auto. Qed.

Lemma check_duration_fired (s : lavc_state) (d : Z) :
  snd (check_duration s d) = true ->
  (mov_avg_frames s < 10 * mov_window)%Z /\ (2 * mov_window <= mov_avg_frames s + 1)%Z /\
  (1 / fps (compressed_desc s) <= mov_avg_comp_duration (fst (check_duration s d)))%Q /\
  mov_avg_frames (fst (check_duration s d)) = LONG_MAX.
Proof.
  unfold check_duration.
  destruct (10 * mov_window <=? mov_avg_frames s)%Z eqn:E1; [discriminate |].
  apply Z.leb_gt in E1.
  match goal with |- context [if ?c then _ else _] => destruct c eqn:E2 end; [discriminate |].
  intros _. apply orb_false_iff in E2 as [E2 E3]. apply Z.ltb_ge in E2.
  apply negb_false_iff, Qle_bool_iff in E3. simpl. repeat split; assumption || lia.
Qed.

(** C5: over any run of frames the monitor emits its warning at most once;
    it fires only when the counter reaches twice the 100-frame window (and
    has not passed the silent 1000-frame limit) with a moving average of at
    least [1/fps], and then disables itself (counter set to [LONG_MAX]).
    After a configuration for 25 fps, 300 frames taking 80 ms each (twice
    the budget) give exactly one warning, at frame 200. *)
Theorem C5_monitor_fires_once :
  (forall (s : lavc_state) (ds : list Z), (count_true (snd (monitor_run s ds)) <= 1)%nat) /\
  (forall (s : lavc_state) (d : Z), snd (check_duration s d) = true ->
     (mov_avg_frames s < 10 * mov_window)%Z /\ (2 * mov_window <= mov_avg_frames s + 1)%Z /\
     (1 / fps (compressed_desc s) <= mov_avg_comp_duration (fst (check_duration s d)))%Q /\
     mov_avg_frames (fst (check_duration s d)) = LONG_MAX) /\
  snd (monitor_run (configure_with_success ex_state ex_desc_1080p25 H264) (repeat 80000000%Z 300)) =
    (repeat false 199 ++ [true] ++ repeat false 100)%list.
Proof.
  split; [| split; [exact check_duration_fired | vm_compute; reflexivity]].
  intros s ds. revert s. induction ds as [| d ds IH]; intros s; simpl; [unfold count_true; simpl; lia |].
  destruct (check_duration s d) as [s1 fired] eqn:E.
  destruct (monitor_run s1 ds) as [s2 fs] eqn:Er. simpl.
  destruct fired.
  - pose proof (check_duration_fired s d) as Hf. rewrite E in Hf.
    destruct (Hf eq_refl) as (_ & _ & _ & Hmax). simpl in Hmax.
    rewrite (monitor_run_disabled s1 ds) in Er by (rewrite Hmax; vm_compute; discriminate).
    injection Er as _ Hfs. subst fs.
    pose proof (count_true_repeat_false (length ds)) as H0.
    unfold count_true in *. simpl. lia.
  - specialize (IH s1). rewrite Er in IH. simpl in IH. simpl. exact IH.
Qed.

(** * Further properties of the module *)

Ltac zifs :=
  repeat match goal with
  | |- context [if (?a =? ?b)%Z then _ else _] => destruct (Z.eqb_spec a b)
  | |- context [if (?a <=? ?b)%Z then _ else _] => destruct (Z.leb_spec a b)
  | |- context [if (?a <? ?b)%Z then _ else _] => destruct (Z.ltb_spec a b)
  end.

(** ** Codec identifiers *)

Lemma av_ug_codec_inverse (a : AVCodecID) :
  get_av_to_ug_codec a <> VIDEO_CODEC_NONE -> get_ug_to_av_codec (get_av_to_ug_codec a) = a.
Proof. destruct a; try reflexivity; intros H; exfalso; apply H; reflexivity. Qed.

(** The ten UltraGrid codecs translate to an FFmpeg id and back to
    themselves; every other UltraGrid codec translates to
    [AV_CODEC_ID_NONE]. *)
Theorem ug_to_av_codec_round_trip (c : Z) :
  (In c [H264; H265; MJPG; J2K; VP8; VP9; HFYU; FFV1; AV1; PRORES] ->
   get_ug_to_av_codec c <> AV_CODEC_ID_NONE /\ get_av_to_ug_codec (get_ug_to_av_codec c) = c) /\
  (~ In c [H264; H265; MJPG; J2K; VP8; VP9; HFYU; FFV1; AV1; PRORES] ->
   get_ug_to_av_codec c = AV_CODEC_ID_NONE).
Proof.
  split.
  - intros H. simpl in H.
    repeat (destruct H as [<- | H]; [split; [discriminate | reflexivity] |]). contradiction.
  - intros H. unfold get_ug_to_av_codec, av_to_uv_map. cbn [ug_to_av_loop].
    zifs; try (exfalso; apply H; subst; simpl; tauto). reflexivity.
Qed.

(** An FFmpeg codec id that [get_av_to_ug_codec] maps to an UltraGrid codec
    is recovered by [get_ug_to_av_codec]. *)
Theorem av_to_ug_codec_round_trip (a : AVCodecID) :
  get_av_to_ug_codec a <> VIDEO_CODEC_NONE -> get_ug_to_av_codec (get_av_to_ug_codec a) = a.
Proof. exact (av_ug_codec_inverse a). Qed.

Lemma av_to_ug_codec_round_trip_witness :
  get_av_to_ug_codec AV_CODEC_ID_HEVC <> VIDEO_CODEC_NONE /\
  get_ug_to_av_codec (get_av_to_ug_codec AV_CODEC_ID_HEVC) = AV_CODEC_ID_HEVC.
Proof.
  split; [discriminate |].
  apply (av_to_ug_codec_round_trip AV_CODEC_ID_HEVC). discriminate.
Defined.

(** ** Log levels *)

(** With UltraGrid's [LOG_LEVEL_QUIET = 0] and [LOG_LEVEL_NOTICE = 4],
    translating an UltraGrid log level to FFmpeg and back gives the same
    level, except [LOG_LEVEL_NOTICE], which comes back as the next level
    ([LOG_LEVEL_INFO]). *)
Theorem uv_av_log_round_trip (LOG_LEVEL_QUIET LOG_LEVEL_NOTICE : Z)
    (HQ : LOG_LEVEL_QUIET = 0%Z) (HN : LOG_LEVEL_NOTICE = 4%Z) (level : Z) :
  (0 <= level)%Z ->
  av_to_uv_log (uv_to_av_log LOG_LEVEL_QUIET LOG_LEVEL_NOTICE level) =
    (if (level =? LOG_LEVEL_NOTICE)%Z then level + 1 else level)%Z.
Proof.
  intros H. subst. unfold uv_to_av_log. cbv zeta.
  assert (Q1 : Z.quot (level * 8) 8 = level) by (apply Z.quot_mul; lia).
  assert (Q2 : Z.quot (level * 8 - 8) 8 = (level - 1)%Z).
  { replace (level * 8 - 8)%Z with ((level - 1) * 8)%Z by ring. apply Z.quot_mul; lia. }
  destruct (Z.eqb_spec (level * 8) (8 * 0)) as [E | E].
  - assert (level = 0%Z) by lia. subst. reflexivity.
  - destruct (Z.leb_spec (level * 8) (8 * 4)) as [E2 | E2];
      unfold av_to_uv_log; cbv zeta; [rewrite Q1 | rewrite Q2]; zifs; lia.
Qed.

Lemma uv_av_log_round_trip_witness :
  av_to_uv_log (uv_to_av_log 0 4 6) = 6%Z /\ av_to_uv_log (uv_to_av_log 0 4 4) = 5%Z.
Proof.
  split.
  - apply (uv_av_log_round_trip 0 4 eq_refl eq_refl 6). lia.
  - apply (uv_av_log_round_trip 0 4 eq_refl eq_refl 4). lia.
Defined.

(** FFmpeg log levels (multiples of 8 from [AV_LOG_QUIET = -8] up)
    translated to UltraGrid and back are unchanged, except
    [AV_LOG_PANIC = 0], which comes back as [AV_LOG_FATAL = 8]. *)
Theorem av_uv_log_round_trip (LOG_LEVEL_QUIET LOG_LEVEL_NOTICE : Z)
    (HQ : LOG_LEVEL_QUIET = 0%Z) (HN : LOG_LEVEL_NOTICE = 4%Z) (k : Z) :
  (-1 <= k)%Z ->
  uv_to_av_log LOG_LEVEL_QUIET LOG_LEVEL_NOTICE (av_to_uv_log (8 * k)) =
    (if (k =? 0)%Z then 8 else 8 * k)%Z.
Proof.
  intros H. subst. unfold av_to_uv_log. cbv zeta.
  assert (Q : Z.quot (8 * k) 8 = k) by (rewrite Z.mul_comm; apply Z.quot_mul; lia).
  rewrite Q. unfold uv_to_av_log. cbv zeta. zifs; lia.
Qed.

Lemma av_uv_log_round_trip_witness :
  uv_to_av_log 0 4 (av_to_uv_log (8 * 4)) = 32%Z /\ uv_to_av_log 0 4 (av_to_uv_log (8 * 0)) = 8%Z.
Proof.
  split.
  - apply (av_uv_log_round_trip 0 4 eq_refl eq_refl 4). lia.
  - apply (av_uv_log_round_trip 0 4 eq_refl eq_refl 0). lia.
Defined.

(** ** Pixel format lists *)

(** [pixfmt_list_has_420_subsampling] reads the list only up to its
    [AV_PIX_FMT_NONE] terminator and, when each of those formats has a
    descriptor, tells whether every one of them is 4:2:0 or hardware
    accelerated. *)
Theorem pixfmt_list_420_before_none (av_pix_fmt_desc_get : Z -> option AVPixFmtDescriptor)
    (fmts : list Z) :
  (forall f, In f (take_until_none fmts) -> is_Some (av_pix_fmt_desc_get f)) ->
  pixfmt_list_has_420_subsampling av_pix_fmt_desc_get fmts =
    Some (forallb (fun f => pixfmt_has_420_subsampling av_pix_fmt_desc_get f ||
                    match av_pix_fmt_desc_get f with
                    | Some d => negb (Z.land (pd_flags d) AV_PIX_FMT_FLAG_HWACCEL =? 0)%Z
                    | None => false
                    end) (take_until_none fmts)).
Proof.
  induction fmts as [| f rest IH]; intros H; cbn [pixfmt_list_has_420_subsampling take_until_none];
    [reflexivity |].
  destruct (f =? AV_PIX_FMT_NONE)%Z eqn:E; [reflexivity |].
  cbn [take_until_none] in H. rewrite E in H. cbn [forallb].
  assert (IH' : pixfmt_list_has_420_subsampling av_pix_fmt_desc_get rest =
     Some (forallb (fun f => pixfmt_has_420_subsampling av_pix_fmt_desc_get f ||
                    match av_pix_fmt_desc_get f with
                    | Some d => negb (Z.land (pd_flags d) AV_PIX_FMT_FLAG_HWACCEL =? 0)%Z
                    | None => false
                    end) (take_until_none rest))) by (apply IH; intros g Hg; apply H; now right).
  destruct (pixfmt_has_420_subsampling av_pix_fmt_desc_get f); cbn [orb andb]; [exact IH' |].
  destruct (H f (or_introl eq_refl)) as [d Hd]. rewrite Hd.
  destruct (Z.land (pd_flags d) AV_PIX_FMT_FLAG_HWACCEL =? 0)%Z; simpl; [reflexivity | exact IH'].
Qed.

Lemma pixfmt_list_420_before_none_witness :
  pixfmt_list_has_420_subsampling ex_pix_desc [0; 2; AV_PIX_FMT_NONE; 1; 7]%Z = Some true.
Proof.
  rewrite (pixfmt_list_420_before_none ex_pix_desc [0; 2; AV_PIX_FMT_NONE; 1; 7]%Z).
  - reflexivity.
  - intros f Hf. simpl in Hf. destruct Hf as [<- | [<- | []]]; eexists; reflexivity.
Defined.

(** ** The format byte of [write_orig_format] *)

Lemma lor_mod_2_8 (a b : Z) : (Z.lor a b mod 2 ^ 8 = Z.lor (a mod 2 ^ 8) (b mod 2 ^ 8))%Z.
Proof. rewrite <- !Z.land_ones by lia. apply Z.land_lor_distr_l. Qed.

Lemma mod_2_32_mod (z m : Z) : (m | 2 ^ 32)%Z -> (0 < m)%Z -> ((z mod 2 ^ 32) mod m = z mod m)%Z.
Proof. intros Hm _. apply Z.mod_mod_divide. exact Hm. Qed.

Lemma orig_format_byte_eq (d : pixfmt_desc) :
  orig_format_byte d =
  Z.lor (Z.lor (Z.lor (Z.quot (pf_depth d - 8) 2 mod 16 * 16)
                      ((Z.rem (Z.quot (pf_subsampling d) 100) 10 - 1) mod 64 * 4))
               (if (Z.rem (Z.quot (pf_subsampling d) 10) 10 mod 2 ^ 32 =? 0)%Z then 0 else 2))
        (Z.b2z (pf_rgb d)).
Proof.
  unfold orig_format_byte; cbv zeta.
  rewrite !lor_mod_2_8.
  f_equal; [f_equal; [f_equal |] |].
  - rewrite mod_2_32_mod by (try (exists (2 ^ 24)%Z; reflexivity); lia).
    rewrite Z.shiftl_mul_pow2 by lia.
    change (2 ^ 8)%Z with (16 * 16)%Z. change (2 ^ 4)%Z with 16%Z.
    apply Z.mul_mod_distr_r; lia.
  - rewrite mod_2_32_mod by (try (exists (2 ^ 24)%Z; reflexivity); lia).
    rewrite Z.shiftl_mul_pow2 by lia.
    change (2 ^ 8)%Z with (64 * 4)%Z. change (2 ^ 2)%Z with 4%Z.
    rewrite Z.mul_mod_distr_r by lia. f_equal.
    rewrite mod_2_32_mod by (try (exists (2 ^ 26)%Z; reflexivity); lia).
    set (x := Z.rem (Z.quot (pf_subsampling d) 100) 10).
    rewrite (Z.mod_eq x (2 ^ 32)) by lia.
    replace (x - 2 ^ 32 * (x / 2 ^ 32) - 1)%Z with ((x - 1) + (- (2 ^ 26 * (x / 2 ^ 32))) * 64)%Z by ring.
    apply Z.mod_add. lia.
  - destruct (_ =? 0)%Z; reflexivity.
  - destruct (pf_rgb d); reflexivity.
Qed.

Lemma format_byte_fields (dq v : Z) (h r : bool) :
  (0 <= dq < 16)%Z -> (0 <= v < 4)%Z ->
  let b := Z.lor (Z.lor (Z.lor (dq * 16) (v * 4)) (if h then 2 else 0)) (Z.b2z r) in
  (0 <= b < 256)%Z /\ Z.shiftr b 4 = dq /\ Z.land (Z.shiftr b 2) 3 = v /\
  Z.testbit b 1 = h /\ Z.testbit b 0 = r.
Proof.
  intros Hd Hv.
  assert (Hd' : In dq (map Z.of_nat (seq 0 16))).
  { apply in_map_iff. exists (Z.to_nat dq). split; [lia | apply in_seq; lia]. }
  assert (Hv' : In v (map Z.of_nat (seq 0 4))).
  { apply in_map_iff. exists (Z.to_nat v). split; [lia | apply in_seq; lia]. }
  clear Hd Hv. simpl in Hd', Hv'.
  destruct h, r;
  repeat (destruct Hd' as [<- | Hd'];
          [repeat (destruct Hv' as [<- | Hv'];
                   [vm_compute; repeat split; first [reflexivity | discriminate] |]);
           contradiction |]);
  contradiction.
Qed.

(** The format byte that [write_orig_format] appends to an H.264/HEVC
    stream decodes back to the source format: for an even depth from 8 to
    38 and a 'JabA' subsampling whose [a] digit is 1 to 4, the byte is in
    range, its four high bits give [(depth - 8) / 2], bits 2-3 give [a - 1],
    bit 1 tells whether the [b] digit is non-zero and bit 0 is the RGB flag. *)
Theorem orig_format_byte_decodes (d : pixfmt_desc) :
  (8 <= pf_depth d <= 38)%Z -> Z.even (pf_depth d) = true -> (0 <= pf_subsampling d)%Z ->
  (1 <= pf_subsampling d / 100 mod 10 <= 4)%Z ->
  (0 <= orig_format_byte d < 256)%Z /\
  pf_depth d = (8 + 2 * Z.shiftr (orig_format_byte d) 4)%Z /\
  (pf_subsampling d / 100 mod 10 = Z.land (Z.shiftr (orig_format_byte d) 2) 3 + 1)%Z /\
  Z.testbit (orig_format_byte d) 1 = negb (pf_subsampling d / 10 mod 10 =? 0)%Z /\
  Z.testbit (orig_format_byte d) 0 = pf_rgb d.
Proof.
  intros Hd He Hs Ha.
  apply Z.even_spec in He. destruct He as [m Hm].
  rewrite orig_format_byte_eq.
  rewrite (Z.quot_div_nonneg (pf_depth d - 8) 2) by lia.
  rewrite (Z.quot_div_nonneg (pf_subsampling d) 100) by lia.
  rewrite (Z.quot_div_nonneg (pf_subsampling d) 10) by lia.
  rewrite (Z.rem_mod_nonneg (pf_subsampling d / 100) 10) by (try apply Z.div_pos; lia).
  rewrite (Z.rem_mod_nonneg (pf_subsampling d / 10) 10) by (try apply Z.div_pos; lia).
  assert (Hb : (0 <= pf_subsampling d / 10 mod 10 < 10)%Z) by (apply Z.mod_pos_bound; lia).
  rewrite (Z.mod_small (pf_subsampling d / 10 mod 10) (2 ^ 32)) by lia.
  set (a := (pf_subsampling d / 100 mod 10)%Z) in *.
  set (bd := (pf_subsampling d / 10 mod 10)%Z) in *.
  assert (Hq : ((pf_depth d - 8) / 2 = m - 4)%Z) by (rewrite Hm; rewrite <- (Z.div_mul (m - 4) 2) by lia; f_equal; ring).
  rewrite Hq. rewrite (Z.mod_small (m - 4) 16) by lia. rewrite (Z.mod_small (a - 1) 64) by lia.
  replace (if (bd =? 0)%Z then 0%Z else 2%Z) with (if negb (bd =? 0)%Z then 2%Z else 0%Z)
    by (destruct (bd =? 0)%Z; reflexivity).
  destruct (format_byte_fields (m - 4) (a - 1) (negb (bd =? 0)%Z) (pf_rgb d)) as (H1 & H2 & H3 & H4 & H5);
    [lia | lia |].
  split; [exact H1 | split; [rewrite H2; lia | split; [rewrite H3; lia | split; assumption]]].
Qed.

Lemma orig_format_byte_decodes_witness :
  (0 <= orig_format_byte ex_pixfmt_v210 < 256)%Z /\
  pf_depth ex_pixfmt_v210 = (8 + 2 * Z.shiftr (orig_format_byte ex_pixfmt_v210) 4)%Z /\
  (pf_subsampling ex_pixfmt_v210 / 100 mod 10 =
     Z.land (Z.shiftr (orig_format_byte ex_pixfmt_v210) 2) 3 + 1)%Z /\
  Z.testbit (orig_format_byte ex_pixfmt_v210) 1 = negb (pf_subsampling ex_pixfmt_v210 / 10 mod 10 =? 0)%Z /\
  Z.testbit (orig_format_byte ex_pixfmt_v210) 0 = pf_rgb ex_pixfmt_v210.
Proof.
  apply (orig_format_byte_decodes ex_pixfmt_v210); unfold ex_pixfmt_v210; simpl;
    first [reflexivity | lia | (vm_compute; split; discriminate)].
Defined.

(** For a subsampling whose hundreds digit is 0 (such as the 0 that
    [av_pixfmt_get_subsampling] returns for other chroma layouts), the
    unsigned [subs_a - 1] wraps around: the format byte is [252], plus 2
    when the tens digit is non-zero, plus the RGB flag, whatever the
    depth, so its depth field always reads 15 and its subsampling field 3. *)
Theorem orig_format_byte_no_hundreds (d : pixfmt_desc) :
  (0 <= pf_subsampling d < 100)%Z ->
  orig_format_byte d =
    (252 + (if (pf_subsampling d / 10 =? 0)%Z then 0 else 2) + Z.b2z (pf_rgb d))%Z /\
  Z.shiftr (orig_format_byte d) 4 = 15%Z /\ Z.land (Z.shiftr (orig_format_byte d) 2) 3 = 3%Z.
Proof.
  intros Hs.
  assert (Heq : orig_format_byte d =
    (252 + (if (pf_subsampling d / 10 =? 0)%Z then 0 else 2) + Z.b2z (pf_rgb d))%Z).
  { rewrite orig_format_byte_eq.
    rewrite (Z.quot_div_nonneg (pf_subsampling d) 100) by lia.
    rewrite (Z.quot_div_nonneg (pf_subsampling d) 10) by lia.
    rewrite (Z.div_small (pf_subsampling d) 100) by lia.
    assert (Ht : (0 <= pf_subsampling d / 10 < 10)%Z) by (split; [apply Z.div_pos | apply Z.div_lt_upper_bound]; lia).
    rewrite (Z.rem_mod_nonneg (pf_subsampling d / 10) 10) by lia.
    rewrite (Z.mod_small (pf_subsampling d / 10) 10) by lia.
    rewrite (Z.mod_small (pf_subsampling d / 10) (2 ^ 32)) by lia.
    assert (Hm : In (Z.quot (pf_depth d - 8) 2 mod 16)%Z (map Z.of_nat (seq 0 16))).
    { apply in_map_iff. exists (Z.to_nat (Z.quot (pf_depth d - 8) 2 mod 16)%Z).
      pose proof (Z.mod_pos_bound (Z.quot (pf_depth d - 8) 2) 16). split; [lia | apply in_seq; lia]. }
    destruct (pf_subsampling d / 10 =? 0)%Z, (pf_rgb d); simpl in Hm;
      repeat (destruct Hm as [<- | Hm]; [reflexivity |]); contradiction. }
  rewrite Heq. destruct (pf_subsampling d / 10 =? 0)%Z, (pf_rgb d); vm_compute; repeat split.
Qed.

Lemma orig_format_byte_no_hundreds_witness :
  orig_format_byte (mk_pixfmt_desc 10 0 false) = 252%Z /\
  Z.shiftr (orig_format_byte (mk_pixfmt_desc 10 0 false)) 4 = 15%Z /\
  Z.land (Z.shiftr (orig_format_byte (mk_pixfmt_desc 10 0 false)) 2) 3 = 3%Z.
Proof. apply (orig_format_byte_no_hundreds (mk_pixfmt_desc 10 0 false)). simpl. lia. Defined.

(** ** String lemmas *)

#[local] Arguments String.append : simpl nomatch.

Lemma starts_with_app (p s : string) : starts_with p (p ++ s) = true.
Proof. induction p as [| c p IH]; simpl; [reflexivity | rewrite Ascii.eqb_refl; exact IH]. Qed.

Lemma str_app_nil_r (s : string) : (s ++ "")%string = s.
Proof. induction s as [| c s IH]; simpl; [reflexivity | rewrite IH; reflexivity]. Qed.

Lemma str_app_assoc (a b c : string) : ((a ++ b) ++ c)%string = (a ++ b ++ c)%string.
Proof. induction a as [| x a IH]; simpl; [reflexivity | rewrite IH; reflexivity]. Qed.

Lemma str_contains_of_starts (p s : string) : starts_with p s = true -> str_contains p s = true.
Proof. intros H. destruct s; simpl; rewrite H; reflexivity. Qed.

Lemma str_contains_app (p a b : string) : str_contains p (a ++ p ++ b) = true.
Proof.
  induction a as [| c a IH].
  - exact (str_contains_of_starts p _ (starts_with_app p b)).
  - simpl. rewrite IH. apply orb_true_r.
Qed.

Lemma starts_with_app_l (p s b : string) : starts_with p s = true -> starts_with p (s ++ b) = true.
Proof.
  revert s. induction p as [| x p IH]; intros s H; [reflexivity |].
  destruct s as [| c s]; [discriminate |]. simpl in *.
  apply andb_true_iff in H as [H1 H2]. rewrite H1. exact (IH s H2).
Qed.

Lemma str_contains_app_l (p a b : string) : str_contains p a = true -> str_contains p (a ++ b) = true.
Proof.
  induction a as [| c a IH]; intros H.
  - destruct p; [destruct b; reflexivity | discriminate].
  - change (starts_with p (String c a) || str_contains p a = true) in H.
    change (starts_with p (String c (a ++ b)) || str_contains p (a ++ b) = true).
    apply orb_true_iff in H as [H | H].
    + rewrite (starts_with_app_l p (String c a) b H : starts_with p (String c (a ++ b)) = true). reflexivity.
    + rewrite (IH H). apply orb_true_r.
Qed.

(** ** The x265 parameter string *)

Lemma x265_params_append_facts (p key val : string) :
  (exists rest, x265_params_append p key val = p ++ rest) /\
  str_contains key (x265_params_append p key val) = true.
Proof.
  unfold x265_params_append. destruct (str_contains key p) eqn:E.
  - split; [exists EmptyString; rewrite str_app_nil_r; reflexivity | exact E].
  - split; [eexists; reflexivity |].
    rewrite <- str_app_assoc. apply str_contains_app.
Qed.

(** [x265_params_append] keeps what the string already holds, leaves the
    key in it and never adds a key twice: appending the same key again,
    with any value, changes nothing. *)
Theorem x265_params_append_once (p key val val' : string) :
  (exists rest, x265_params_append p key val = p ++ rest) /\
  str_contains key (x265_params_append p key val) = true /\
  x265_params_append (x265_params_append p key val) key val' = x265_params_append p key val.
Proof.
  destruct (x265_params_append_facts p key val) as [H1 H2].
  split; [exact H1 | split; [exact H2 |]].
  unfold x265_params_append at 1. rewrite H2. reflexivity.
Qed.

Lemma x265_append_contains_mono (p key val k : string) :
  str_contains k p = true -> str_contains k (x265_params_append p key val) = true.
Proof.
  intros H. destruct (x265_params_append_facts p key val) as [[rest ->] _].
  apply str_contains_app_l. exact H.
Qed.

(** For libx265, [configure_x264_x265] passes an "x265-params" value that
    starts with the user's "x265-params" option (if any, which it then
    blacklists), contains "keyint" and, when periodic intra refresh is not
    disabled, "intra-refresh", "constrained-intra" and "no-open-gop";
    without a user option and intra refresh disabled it is exactly
    ["keyint=<gop>"]. *)
Theorem x265_params_libx265 (lavc_opts : gmap string string) (bl : gset string)
    (gop periodic_intra : Z) :
  let '(x265, bl') := configure_x264_x265_params "libx265" lavc_opts bl gop periodic_intra in
  exists p,
    x265 = Some p /\
    (forall user, lavc_opts !! "x265-params" = Some user -> exists rest, p = user ++ rest) /\
    str_contains "keyint" p = true /\
    (periodic_intra <> 0%Z ->
       str_contains "intra-refresh" p = true /\ str_contains "constrained-intra" p = true /\
       str_contains "no-open-gop" p = true) /\
    (lavc_opts !! "x265-params" = None -> periodic_intra = 0%Z -> p = "keyint=" ++ to_string_Z gop) /\
    ("x265-params" ∈ bl' <-> "x265-params" ∈ bl \/ is_Some (lavc_opts !! "x265-params")).
Proof.
  unfold configure_x264_x265_params.
  set (p0 := match lavc_opts !! "x265-params" with Some v => v | None => EmptyString end).
  assert (Hsplit : (match lavc_opts !! "x265-params" with
                    | Some v => (v, {[ "x265-params" ]} ∪ bl)
                    | None => (EmptyString, bl) end) =
                   (p0, if decide (is_Some (lavc_opts !! "x265-params")) then {[ "x265-params" ]} ∪ bl else bl)).
  { unfold p0. destruct (lavc_opts !! "x265-params") as [v |].
    - destruct (decide (is_Some (Some v))) as [Hs | Hs]; [reflexivity |].
      exfalso. apply Hs. eexists. reflexivity.
    - destruct (decide (is_Some (@None string))) as [Hs | Hs]; [| reflexivity].
      destruct Hs as [? ?]. discriminate. }
  rewrite Hsplit. cbn [String.eqb Ascii.eqb Bool.eqb andb orb].
  set (p1 := x265_params_append p0 "keyint" (to_string_Z gop)).
  destruct (x265_params_append_facts p0 "keyint" (to_string_Z gop)) as [[r1 Hr1] Hk1].
  fold p1 in Hr1, Hk1.
  set (p2 := if negb (periodic_intra =? 0)%Z
             then x265_params_append (x265_params_append (x265_params_append p1 "intra-refresh" "1")
                                    "constrained-intra" "1") "no-open-gop" "1" else p1).
  exists p2. split; [reflexivity |].
  split; [| split; [| split; [| split]]].
  - intros user Hu. unfold p0 in Hr1. rewrite Hu in Hr1. unfold p2.
    destruct (negb (periodic_intra =? 0)%Z).
    + destruct (x265_params_append_facts p1 "intra-refresh" "1") as [[r2 Hr2] _].
      destruct (x265_params_append_facts (x265_params_append p1 "intra-refresh" "1")
                  "constrained-intra" "1") as [[r3 Hr3] _].
      destruct (x265_params_append_facts (x265_params_append (x265_params_append p1 "intra-refresh" "1")
                  "constrained-intra" "1") "no-open-gop" "1") as [[r4 Hr4] _].
      rewrite Hr4, Hr3, Hr2, Hr1. exists (r1 ++ r2 ++ r3 ++ r4). rewrite !str_app_assoc. reflexivity.
    + rewrite Hr1. exists r1. reflexivity.
  - unfold p2. destruct (negb (periodic_intra =? 0)%Z); [| exact Hk1].
    do 3 apply x265_append_contains_mono. exact Hk1.
  - intros Hpi. unfold p2. destruct (Z.eqb_spec periodic_intra 0) as [E | _]; [contradiction |]. simpl.
    split; [| split].
    + apply x265_append_contains_mono, x265_append_contains_mono, x265_params_append_facts.
    + apply x265_append_contains_mono, x265_params_append_facts.
    + apply x265_params_append_facts.
  - intros Hn Hpi. unfold p2. subst periodic_intra. simpl. unfold p1, p0. rewrite Hn. reflexivity.
  - destruct (decide (is_Some (lavc_opts !! "x265-params"))) as [Hs | Hs]; set_solver.
Qed.

(** [configure_x264_x265] appends none of its keys that the user's
    "x265-params" already contains anywhere, even inside a longer key: a
    user value containing "keyint" (for example "min-keyint=5") replaces
    the module's "keyint=<gop>", and with intra refresh disabled the value
    passed is the user's unchanged. For libx264 and libx264rgb nothing is
    passed, yet a user "x265-params" option is still blacklisted. *)
Theorem x265_params_user_keys (lavc_opts : gmap string string) (bl : gset string) (gop : Z)
    (user : string) :
  lavc_opts !! "x265-params" = Some user -> str_contains "keyint" user = true ->
  configure_x264_x265_params "libx265" lavc_opts bl gop 0 = (Some user, {[ "x265-params" ]} ∪ bl) /\
  configure_x264_x265_params "libx264" lavc_opts bl gop 0 = (None, {[ "x265-params" ]} ∪ bl) /\
  configure_x264_x265_params "libx264rgb" lavc_opts bl gop 0 = (None, {[ "x265-params" ]} ∪ bl).
Proof.
  intros Hu Hk. unfold configure_x264_x265_params, x265_params_append. rewrite Hu, Hk.
  split; [reflexivity | split; reflexivity].
Qed.

Lemma x265_params_user_keys_witness :
  configure_x264_x265_params "libx265" (<[ "x265-params" := "min-keyint=5" ]> ∅) ∅ 20 0 =
    (Some "min-keyint=5", {[ "x265-params" ]} ∪ ∅) /\
  configure_x264_x265_params "libx264" (<[ "x265-params" := "min-keyint=5" ]> ∅) ∅ 20 0 =
    (None, {[ "x265-params" ]} ∪ ∅) /\
  configure_x264_x265_params "libx264rgb" (<[ "x265-params" := "min-keyint=5" ]> ∅) ∅ 20 0 =
    (None, {[ "x265-params" ]} ∪ ∅).
Proof.
  apply (x265_params_user_keys (<[ "x265-params" := "min-keyint=5" ]> ∅) ∅ 20 "min-keyint=5").
  - apply lookup_insert_eq.
  - reflexivity.
Defined.

(** ** User supplied options *)

Lemma set_user_opts_facts (f : string -> string -> bool) (items : list (string * string))
    (bl : gset string) :
  (forall k v, In (k, v) (fst (set_user_opts f items bl)) -> In (k, v) items /\ k ∉ bl) /\
  (snd (set_user_opts f items bl) = true <-> forall k v, In (k, v) items -> k ∉ bl -> f k v = true).
Proof.
  induction items as [| [k v] rest [IH1 IH2]]; simpl.
  - split; [tauto | split; [intros _ k v [] | reflexivity]].
  - destruct (decide (k ∈ bl)) as [Hk | Hk].
    + split.
      * intros k' v' H. destruct (IH1 k' v' H). split; [right |]; assumption.
      * rewrite IH2. split.
        -- intros H k' v' [E | Hin] Hb; [injection E as -> ->; contradiction | exact (H k' v' Hin Hb)].
        -- intros H k' v' Hin Hb. exact (H k' v' (or_intror Hin) Hb).
    + destruct (f k v) eqn:Ef.
      * destruct (set_user_opts f rest bl) as [calls ok] eqn:Er. simpl in *.
        split.
        -- intros k' v' [E | H]; [injection E as <- <-; split; [left; reflexivity | exact Hk] |].
           destruct (IH1 k' v' H). split; [right |]; assumption.
        -- rewrite IH2. split.
           ++ intros H k' v' [E | Hin] Hb; [injection E as <- <-; exact Ef | exact (H k' v' Hin Hb)].
           ++ intros H k' v' Hin Hb. exact (H k' v' (or_intror Hin) Hb).
      * simpl. split.
        -- intros k' v' [E | []]. injection E as <- <-. split; [left; reflexivity | exact Hk].
        -- split; [discriminate |]. intros H. rewrite (H k v (or_introl eq_refl) Hk) in Ef. discriminate.
Qed.

(** The loop that hands the user's options to the codec passes only
    options that the user gave and that no tuning function has
    blacklisted, and reports success exactly when the codec accepts every
    option that is not blacklisted. *)
Theorem set_user_opts_spec (av_opt_set : string -> string -> bool) (items : list (string * string))
    (bl : gset string) :
  let '(calls, ok) := set_user_opts av_opt_set items bl in
  (forall k v, In (k, v) calls -> In (k, v) items /\ k ∉ bl) /\
  (ok = true <-> forall k v, In (k, v) items -> k ∉ bl -> av_opt_set k v = true).
Proof.
  pose proof (set_user_opts_facts av_opt_set items bl) as H.
  destruct (set_user_opts av_opt_set items bl). exact H.
Qed.

(** The "rc" option consumed by the QSV rate control is never handed to
    the codec as a user option. *)
Theorem qsv_rc_not_forwarded (av_opt_set : string -> string -> bool) (ctx ctx' : qsv_ctx)
    (lavc_opts : gmap string string) (bl bl' : gset string) (v : string) :
  configure_qsv_rc ctx lavc_opts bl = QsvConfigured ctx' bl' ->
  ~ In ("rc", v) (fst (set_user_opts av_opt_set (map_to_list lavc_opts) bl')).
Proof.
  intros Hc Hin.
  destruct (proj1 (set_user_opts_facts av_opt_set (map_to_list lavc_opts) bl') "rc" v Hin) as [Hm Hb].
  apply list_elem_of_In, elem_of_map_to_list in Hm.
  unfold configure_qsv_rc, qsv_rc_of in Hc. rewrite Hm in Hc.
  repeat match goal with
         | H : context [if ?b then _ else _] |- _ => destruct b
         end; try discriminate; injection Hc as _ <-; set_solver.
Qed.

Lemma qsv_rc_not_forwarded_witness :
  configure_qsv_rc ex_qsv (<[ "rc" := "cbr" ]> ∅) ∅ =
    QsvConfigured (mk_qsv 2000000 2000000 false 0) ({[ "rc" ]} ∪ ∅) /\
  ~ In ("rc", "cbr") (fst (set_user_opts (fun _ _ => true) (map_to_list (<[ "rc" := "cbr" ]> ∅ : gmap string string))
                          ({[ "rc" ]} ∪ ∅))).
Proof.
  assert (H : configure_qsv_rc ex_qsv (<[ "rc" := "cbr" ]> ∅) ∅ =
                QsvConfigured (mk_qsv 2000000 2000000 false 0) ({[ "rc" ]} ∪ ∅)) by reflexivity.
  split; [exact H |].
  exact (qsv_rc_not_forwarded (fun _ _ => true) ex_qsv (mk_qsv 2000000 2000000 false 0)
           (<[ "rc" := "cbr" ]> ∅) ∅ ({[ "rc" ]} ∪ ∅) "cbr" H).
Defined.

(** A user "x265-params" option is never handed to the codec as a user
    option after [configure_x264_x265], whatever the encoder: libx265
    receives the merged value through its own option, the other encoders
    not at all. *)
Theorem x265_params_not_forwarded (av_opt_set : string -> string -> bool) (codec_name : string)
    (lavc_opts : gmap string string) (bl : gset string) (gop periodic_intra : Z) (v : string) :
  ~ In ("x265-params", v)
      (fst (set_user_opts av_opt_set (map_to_list lavc_opts)
              (snd (configure_x264_x265_params codec_name lavc_opts bl gop periodic_intra)))).
Proof.
  intros Hin.
  destruct (proj1 (set_user_opts_facts av_opt_set (map_to_list lavc_opts) _) _ v Hin) as [Hm Hb].
  apply list_elem_of_In, elem_of_map_to_list in Hm.
  unfold configure_x264_x265_params in Hb. rewrite Hm in Hb. simpl in Hb. set_solver.
Qed.

(** ** [apply_blacklist] *)

Lemma erase_first_sublist (x : Z) (formats : list Z) : erase_first x formats `sublist_of` formats.
Proof.
  induction formats as [| y rest IH]; simpl; [constructor |].
  destruct (y =? x)%Z; constructor; [reflexivity | exact IH].
Qed.

Lemma erase_first_length (x : Z) (formats : list Z) :
  (pred (length formats) <= length (erase_first x formats))%nat.
Proof.
  induction formats as [| y rest IH]; simpl; [lia |].
  destruct (y =? x)%Z; simpl; lia.
Qed.

Lemma erase_first_count (x : Z) (formats : list Z) (y : Z) :
  count_occ Z.eq_dec (erase_first x formats) y =
  if (y =? x)%Z then pred (count_occ Z.eq_dec formats y) else count_occ Z.eq_dec formats y.
Proof.
  destruct (Z.eqb_spec y x) as [Hyx | Hyx];
    induction formats as [| z rest IH]; simpl; try reflexivity;
    destruct (Z.eqb_spec z x) as [Hzx | Hzx]; simpl; try rewrite IH;
    destruct (Z.eq_dec z y); try congruence; try lia.
Qed.

(** [apply_blacklist] only removes formats, keeping the order of the
    others, and never empties a non-empty list of candidates. *)
Theorem apply_blacklist_sublist (x2rgb10le : Z) (formats : list Z) (encoder_name : string) :
  apply_blacklist x2rgb10le formats encoder_name `sublist_of` formats /\
  (formats <> [] -> apply_blacklist x2rgb10le formats encoder_name <> []).
Proof.
  unfold apply_blacklist. split.
  - destruct (str_contains "nvenc" encoder_name); [| reflexivity].
    destruct (length formats =? 1)%nat; [reflexivity | apply erase_first_sublist].
  - intros Hne. destruct (str_contains "nvenc" encoder_name); [| exact Hne].
    destruct (Nat.eqb_spec (length formats) 1) as [_ | H1]; [exact Hne |].
    pose proof (erase_first_length x2rgb10le formats) as Hl.
    destruct formats as [| a [| b rest]]; [contradiction | simpl in H1; lia |].
    intros E. rewrite E in Hl. simpl in Hl. lia.
Qed.

(** [apply_blacklist] removes one occurrence of [AV_PIX_FMT_X2RGB10LE],
    and nothing else, exactly when the encoder name contains "nvenc" and
    more than one candidate is left. *)
Theorem apply_blacklist_count (x2rgb10le : Z) (formats : list Z) (encoder_name : string) (y : Z) :
  count_occ Z.eq_dec (apply_blacklist x2rgb10le formats encoder_name) y =
  if str_contains "nvenc" encoder_name && negb (length formats =? 1)%nat && (y =? x2rgb10le)%Z
  then pred (count_occ Z.eq_dec formats y) else count_occ Z.eq_dec formats y.
Proof.
  unfold apply_blacklist. destruct (str_contains "nvenc" encoder_name); [| reflexivity].
  destruct (length formats =? 1)%nat; simpl; [reflexivity |].
  rewrite erase_first_count. reflexivity.
Qed.

(** ** [get_av_codec] *)

(** With an encoder given by name, [get_av_codec] returns only that
    encoder, only when UltraGrid knows its codec and it is the requested
    one (if one was requested), and leaves in [*ug_codec] the UltraGrid
    codec that translates back to the encoder's codec id. *)
Theorem get_av_codec_backend (find_by_name : string -> option AVCodec)
    (find : AVCodecID -> option AVCodec) (backend : string) (requested ug_codec : Z) (src_rgb : bool)
    (codec : AVCodec) (ug' : Z) :
  backend <> EmptyString ->
  get_av_codec find_by_name find backend requested ug_codec src_rgb = (Some codec, ug') ->
  find_by_name backend = Some codec /\ ug' = get_av_to_ug_codec (codec_id codec) /\
  ug' <> VIDEO_CODEC_NONE /\ (requested = VIDEO_CODEC_NONE \/ requested = ug') /\
  get_ug_to_av_codec ug' = codec_id codec.
Proof.
  intros Hb H. unfold get_av_codec in H.
  destruct (String.eqb_spec backend "") as [E | _]; [contradiction |]. simpl in H.
  destruct (find_by_name backend) as [c |] eqn:Ef; [| discriminate].
  destruct (Z.eqb_spec requested VIDEO_CODEC_NONE) as [Hr | Hr];
    destruct (Z.eqb_spec requested (get_av_to_ug_codec (codec_id c))) as [Hr' | Hr']; simpl in H;
    try discriminate;
    destruct (Z.eqb_spec (get_av_to_ug_codec (codec_id c)) VIDEO_CODEC_NONE) as [Hn | Hn];
    try discriminate; injection H as <- <-;
    (split; [reflexivity | split; [reflexivity | split; [exact Hn | split; [tauto | apply av_ug_codec_inverse; exact Hn]]]]).
Qed.

Lemma get_av_codec_backend_witness :
  "libx265" <> EmptyString /\
  get_av_codec ex_find_by_name (fun _ => None) "libx265" VIDEO_CODEC_NONE H264 false =
    (Some (mk_avcodec "libx265" AV_CODEC_ID_HEVC), H265) /\
  get_ug_to_av_codec H265 = AV_CODEC_ID_HEVC.
Proof.
  assert (Hb : "libx265" <> EmptyString) by discriminate.
  assert (Hg : get_av_codec ex_find_by_name (fun _ => None) "libx265" VIDEO_CODEC_NONE H264 false =
                 (Some (mk_avcodec "libx265" AV_CODEC_ID_HEVC), H265)) by reflexivity.
  destruct (get_av_codec_backend ex_find_by_name (fun _ => None) "libx265" VIDEO_CODEC_NONE H264 false
              (mk_avcodec "libx265" AV_CODEC_ID_HEVC) H265 Hb Hg) as [_ [_ [_ [_ H5]]]].
  split; [exact Hb | split; [exact Hg | exact H5]].
Defined.

(** ** [configure_svt] *)

(** [configure_svt] forces IDR frames off for libsvt_hevc and on for the
    other SVT encoders; libsvt_hevc is given tiles exactly when the frame
    is at least 256x64 and, in addition, at least 512 wide or 128 high;
    libsvtav1 gets the low-latency prediction structure and 4x4 tiles. *)
Theorem configure_svt_tiles (desc : video_desc) :
  hd_error (configure_svt "libsvt_hevc" desc) = Some ("forced-idr", OptStr "0") /\
  (In "tile_row_cnt" (map fst (configure_svt "libsvt_hevc" desc)) <->
   (256 <= width desc /\ 64 <= height desc /\ (512 <= width desc \/ 128 <= height desc))%Z) /\
  configure_svt "libsvtav1" desc =
    [("forced-idr", OptStr "1"); ("svtav1-params", OptStr "pred-struct=1:tile-columns=2:tile-rows=2")].
Proof.
  split; [reflexivity | split; [| reflexivity]].
  unfold configure_svt. simpl.
  destruct (Z.leb_spec 1024 (width desc)); destruct (Z.leb_spec 512 (width desc));
    destruct (Z.leb_spec 256 (height desc)); destruct (Z.leb_spec 128 (height desc));
    destruct (Z.leb_spec 256 (width desc)); destruct (Z.leb_spec 64 (height desc));
    simpl; split; intros; intuition (try discriminate; try lia).
Qed.

(** ** [set_codec_thread_mode] *)

Lemma lor_thread_bits (t k : Z) :
  (-1 <= t <= 3)%Z -> k = FF_THREAD_FRAME \/ k = FF_THREAD_SLICE -> (-1 <= Z.lor t k <= 3)%Z.
Proof.
  intros Ht Hk. assert (t = -1 \/ t = 0 \/ t = 1 \/ t = 2 \/ t = 3)%Z as E by lia.
  destruct Hk as [-> | ->]; destruct E as [-> | [-> | [-> | [-> | ->]]]]; vm_compute; split; intros Hc; discriminate Hc.
Qed.

Lemma thread_mode_letters_range (s : string) (t : Z) :
  (-1 <= t <= 3)%Z -> (-1 <= thread_mode_letters s t <= 3)%Z.
Proof.
  revert t. induction s as [| c s IH]; intros t Ht; simpl; [exact Ht |].
  apply IH. destruct (Ascii.eqb (ascii_toupper c) "n"); [lia |].
  destruct (Ascii.eqb (ascii_toupper c) "F"); [apply lor_thread_bits; auto |].
  destruct (Ascii.eqb (ascii_toupper c) "S"); [apply lor_thread_bits; auto | exact Ht].
Qed.

Lemma parse_thread_mode_range (thread_mode : string) (cnt t : Z) :
  parse_thread_mode thread_mode = Some (cnt, t) -> (-1 <= t <= 3)%Z.
Proof.
  unfold parse_thread_mode. destruct (stoi thread_mode); intros H; try discriminate;
    injection H as _ <-; apply thread_mode_letters_range; lia.
Qed.

(** [set_codec_thread_mode] either keeps the context's thread type or sets
    a combination of frame and slice threading that the codec's
    capabilities support. *)
Theorem set_codec_thread_mode_caps (caps : Z) (codec_name : string) (hw tt0 tc0 : Z)
    (thread_mode : string) (tt tc : Z) :
  set_codec_thread_mode caps codec_name hw tt0 tc0 thread_mode = Some (tt, tc) ->
  tt = tt0 \/
  ((0 <= tt <= 3)%Z /\
   (has_cap tt FF_THREAD_SLICE = true -> has_cap caps AV_CODEC_CAP_SLICE_THREADS = true) /\
   (has_cap tt FF_THREAD_FRAME = true -> has_cap caps AV_CODEC_CAP_FRAME_THREADS = true)).
Proof.
  unfold set_codec_thread_mode. destruct (String.eqb thread_mode "no").
  - intros H. injection H as <- _. right. split; [lia | split; discriminate].
  - destruct (parse_thread_mode thread_mode) as [[cnt t] |] eqn:Ep; [| discriminate].
    apply parse_thread_mode_range in Ep. intros H. injection H as Htt _.
    set (req := if (t =? 0)%Z then (if has_cap caps AV_CODEC_CAP_SLICE_THREADS then FF_THREAD_SLICE else 0%Z)
                else if (t =? -1)%Z then 0%Z else t) in Htt.
    assert (Hreq : (0 <= req <= 3)%Z).
    { unfold req. destruct (Z.eqb_spec t 0); [destruct (has_cap caps AV_CODEC_CAP_SLICE_THREADS);
        unfold FF_THREAD_SLICE; lia |]. destruct (Z.eqb_spec t (-1)); lia. }
    destruct ((has_cap req FF_THREAD_SLICE && negb (has_cap caps AV_CODEC_CAP_SLICE_THREADS)) ||
              (has_cap req FF_THREAD_FRAME && negb (has_cap caps AV_CODEC_CAP_FRAME_THREADS))) eqn:C.
    + left. symmetry. exact Htt.
    + right. subst tt. apply orb_false_iff in C as [C1 C2]. split; [exact Hreq | split].
      * intros Hs. rewrite Hs in C1. destruct (has_cap caps AV_CODEC_CAP_SLICE_THREADS); [reflexivity | discriminate].
      * intros Hf. rewrite Hf in C2. destruct (has_cap caps AV_CODEC_CAP_FRAME_THREADS); [reflexivity | discriminate].
Qed.

Lemma set_codec_thread_mode_caps_witness :
  set_codec_thread_mode (2 ^ 12) "libx264" 8 0 1 "S" = Some (0%Z, 1%Z) /\
  (0%Z = 0%Z \/
   ((0 <= 0 <= 3)%Z /\
    (has_cap 0 FF_THREAD_SLICE = true -> has_cap (2 ^ 12) AV_CODEC_CAP_SLICE_THREADS = true) /\
    (has_cap 0 FF_THREAD_FRAME = true -> has_cap (2 ^ 12) AV_CODEC_CAP_FRAME_THREADS = true))).
Proof.
  assert (H : set_codec_thread_mode (2 ^ 12) "libx264" 8 0 1 "S" = Some (0%Z, 1%Z)) by reflexivity.
  split; [exact H | exact (set_codec_thread_mode_caps (2 ^ 12) "libx264" 8 0 1 "S" 0 1 H)].
Defined.

(** ** Encoder names *)

Lemma str_length_app (a b : string) : String.length (a ++ b) = (String.length a + String.length b)%nat.
Proof. induction a as [| c a IH]; simpl; [reflexivity | rewrite IH; reflexivity]. Qed.

Lemma substring_app (pre s : string) (m k : nat) :
  substring (String.length pre + m) k (pre ++ s) = substring m k s.
Proof. induction pre as [| c pre IH]; simpl; [reflexivity | exact IH]. Qed.

Lemma substring_all (s : string) : substring 0 (String.length s) s = s.
Proof. induction s as [| c s IH]; simpl; [reflexivity | rewrite IH; reflexivity]. Qed.

Lemma ends_with_app (pre s suffix : string) :
  (String.length suffix <= String.length s)%nat -> ends_with suffix (pre ++ s) = ends_with suffix s.
Proof.
  intros Hl. unfold ends_with. rewrite str_length_app.
  replace (String.length pre + String.length s - String.length suffix)%nat
    with (String.length pre + (String.length s - String.length suffix))%nat by lia.
  rewrite substring_app.
  replace (String.length suffix <=? String.length pre + String.length s)%nat with true
    by (symmetry; apply Nat.leb_le; lia).
  replace (String.length suffix <=? String.length s)%nat with true by (symmetry; apply Nat.leb_le; lia).
  reflexivity.
Qed.

Lemma ends_with_self_app (pre s : string) : ends_with s (pre ++ s) = true.
Proof.
  rewrite ends_with_app by lia. unfold ends_with. rewrite Nat.sub_diag, substring_all, Nat.leb_refl.
  apply String.eqb_refl.
Qed.

Lemma vaapi_name (pre : string) : setparam_h264_h265_av1 (pre ++ "_vaapi") = ConfigureVaapi.
Proof.
  unfold setparam_h264_h265_av1.
  rewrite (ends_with_app pre "_vaapi" "_amf") by (simpl; lia).
  rewrite ends_with_self_app. reflexivity.
Qed.

(** For H.264, HEVC and AV1, an encoder whose name ends in "_vaapi" is
    configured by [configure_vaapi], and threading is then disabled
    whatever the user's thread mode. *)
Theorem vaapi_disables_threading (ug_codec : Z) (pre : string) (caps hw tt0 tc0 : Z)
    (thread_mode : string) :
  In ug_codec [H264; H265; AV1] ->
  setparam_h264_h265_av1 (pre ++ "_vaapi") = ConfigureVaapi /\
  set_codec_thread_mode caps (pre ++ "_vaapi") hw tt0 tc0
    (thread_mode_after_set_param ug_codec (pre ++ "_vaapi") thread_mode) = Some (0%Z, 1%Z).
Proof.
  intros Hug. split; [apply vaapi_name |].
  unfold thread_mode_after_set_param. rewrite vaapi_name.
  destruct Hug as [<- | [<- | [<- | []]]]; reflexivity.
Qed.

Lemma vaapi_disables_threading_witness :
  In H265 [H264; H265; AV1] /\
  setparam_h264_h265_av1 ("hevc" ++ "_vaapi") = ConfigureVaapi /\
  set_codec_thread_mode (2 ^ 13) ("hevc" ++ "_vaapi") 8 2 4 (thread_mode_after_set_param H265 ("hevc" ++ "_vaapi") "4FS") =
    Some (0%Z, 1%Z).
Proof.
  split; [simpl; tauto |].
  apply (vaapi_disables_threading H265 "hevc" (2 ^ 13) 8 2 4 "4FS"). simpl. tauto.
Defined.

(** ** Presets *)

Lemma h26x_preset_dont_set (name : string) (w h : Z) (f : Q) :
  ends_with "_amf" name = true \/ str_contains "nvenc" name = true \/
  (ends_with "_vaapi" name = true /\ ends_with "_qsv" name = false) ->
  get_h264_h265_preset name w h f = DONT_SET_PRESET.
Proof.
  intros H. unfold get_h264_h265_preset.
  destruct (String.eqb_spec name "libx264") as [-> | _];
    [destruct H as [H | [H | [H _]]]; vm_compute in H; discriminate H |].
  destruct (String.eqb_spec name "libx264rgb") as [-> | _];
    [destruct H as [H | [H | [H _]]]; vm_compute in H; discriminate H |].
  destruct (String.eqb_spec name "libx265") as [-> | _];
    [destruct H as [H | [H | [H _]]]; vm_compute in H; discriminate H |].
  simpl. destruct (ends_with "_amf" name) eqn:Ea; [reflexivity |].
  destruct (str_contains "nvenc" name) eqn:En; [reflexivity |].
  destruct H as [H | [H | [Hv Hq]]]; [congruence | congruence |].
  rewrite Hq, Hv. reflexivity.
Qed.

Lemma preset_unset (lavc_opts : gmap string string) :
  lavc_opts !! "preset" = None -> bool_decide (is_Some (lavc_opts !! "preset")) = false.
Proof. intros Hn. apply bool_decide_eq_false_2. rewrite Hn. intros [? ?]. discriminate. Qed.

Lemma nvenc_preset_dont_set (name : string) (w h : Z) (f : Q) :
  setparam_h264_h265_av1 name = ConfigureNvenc -> get_h264_h265_preset name w h f = DONT_SET_PRESET.
Proof.
  intros H. apply h26x_preset_dont_set. right; left.
  unfold setparam_h264_h265_av1 in H.
  destruct (ends_with "_amf" name); [discriminate |].
  destruct (ends_with "_vaapi" name); [discriminate |].
  destruct (starts_with "libx264" name || String.eqb name "libx265"); [discriminate |].
  destruct (str_contains "nvenc" name); [reflexivity | ].
  destruct (String.eqb name "h264_qsv" || String.eqb name "hevc_qsv"); [discriminate |].
  destruct (starts_with "libsvt" name); discriminate.
Qed.

Lemma nvenc_not_svtav1 (name : string) :
  setparam_h264_h265_av1 name = ConfigureNvenc -> String.eqb name "libsvtav1" = false.
Proof.
  intros H. destruct (String.eqb_spec name "libsvtav1") as [-> | _]; [| reflexivity].
  vm_compute in H. discriminate H.
Qed.

(** Unless the user gives a preset, [set_codec_ctx_params] sets for
    libx264 and libx264rgb "veryfast" up to 1920x1080 at 30 fps and
    "ultrafast" above, for libx265 always "ultrafast", for libsvtav1 "9"
    or "11" by the same bound, for the QSV encoders "medium"; the NVENC
    encoders of H.264, HEVC and AV1 (h264_nvenc, hevc_nvenc, av1_nvenc and
    any other name [setparam_h264_h265_av1] sends to [configure_nvenc]) get
    "p4" from [configure_nvenc], "llhq" when the option "tune" could not
    be set; AMF and VA-API encoders, other AV1 encoders and the codecs
    without a preset function get none. A user preset is never
    overridden. *)
Theorem preset_policy (tune_ok : bool) (lavc_opts : gmap string string) (desc : video_desc) :
  (lavc_opts !! "preset" = None ->
   let small := ((width desc <=? 1920)%Z && (height desc <=? 1080)%Z && Qle_bool (fps desc) 30) in
   let nvenc_preset := if tune_ok then "p4" else "llhq" in
   presets_set tune_ok lavc_opts H264 "libx264" desc = [if small then "veryfast" else "ultrafast"] /\
   presets_set tune_ok lavc_opts H264 "libx264rgb" desc = [if small then "veryfast" else "ultrafast"] /\
   presets_set tune_ok lavc_opts H265 "libx265" desc = ["ultrafast"] /\
   presets_set tune_ok lavc_opts AV1 "libsvtav1" desc = [if small then "9" else "11"] /\
   (setparam_h264_h265_av1 "h264_nvenc" = ConfigureNvenc /\
    setparam_h264_h265_av1 "hevc_nvenc" = ConfigureNvenc /\
    setparam_h264_h265_av1 "av1_nvenc" = ConfigureNvenc) /\
   (forall ug name, In ug [H264; H265; AV1] -> setparam_h264_h265_av1 name = ConfigureNvenc ->
      presets_set tune_ok lavc_opts ug name desc = [nvenc_preset]) /\
   (forall ug, ug = H264 \/ ug = H265 ->
      presets_set tune_ok lavc_opts ug "h264_qsv" desc = ["medium"] /\
      presets_set tune_ok lavc_opts ug "hevc_qsv" desc = ["medium"] /\
      (forall pre, presets_set tune_ok lavc_opts ug (pre ++ "_amf") desc = [] /\
                   presets_set tune_ok lavc_opts ug (pre ++ "_vaapi") desc = [])) /\
   (forall name, name <> "libsvtav1" -> setparam_h264_h265_av1 name <> ConfigureNvenc ->
      presets_set tune_ok lavc_opts AV1 name desc = []) /\
   (forall ug name, ~ In ug [H264; H265; AV1] -> presets_set tune_ok lavc_opts ug name desc = [])) /\
  (is_Some (lavc_opts !! "preset") -> forall ug name, presets_set tune_ok lavc_opts ug name desc = []).
Proof.
  split.
  - intros Hn. cbv zeta. pose proof (preset_unset lavc_opts Hn) as Hb.
    assert (Hsmall : forall a b : string, a <> "" -> b <> "" -> a <> DONT_SET_PRESET -> b <> DONT_SET_PRESET ->
              (if negb (String.eqb (if ((width desc <=? 1920)%Z && (height desc <=? 1080)%Z &&
                                         Qle_bool (fps desc) 30) then a else b) "") &&
                  negb (String.eqb (if ((width desc <=? 1920)%Z && (height desc <=? 1080)%Z &&
                                         Qle_bool (fps desc) 30) then a else b) DONT_SET_PRESET)
               then [if ((width desc <=? 1920)%Z && (height desc <=? 1080)%Z &&
                          Qle_bool (fps desc) 30) then a else b] else []) =
              [if ((width desc <=? 1920)%Z && (height desc <=? 1080)%Z && Qle_bool (fps desc) 30)
               then a else b]).
    { intros a b Ha Hb' Ha' Hb''. destruct (_ && _ && _);
        [destruct (String.eqb_spec a ""), (String.eqb_spec a DONT_SET_PRESET) |
         destruct (String.eqb_spec b ""), (String.eqb_spec b DONT_SET_PRESET)];
        first [contradiction | reflexivity]. }
    assert (Hdont : forall ug name, ug = H264 \/ ug = H265 ->
              setparam_h264_h265_av1 name <> ConfigureNvenc ->
              get_h264_h265_preset name (width desc) (height desc) (fps desc) = DONT_SET_PRESET ->
              presets_set tune_ok lavc_opts ug name desc = []).
    { intros ug name Hug Hnv Hd. unfold presets_set. rewrite Hb.
      replace (get_preset ug) with (Some get_h264_h265_preset) by (destruct Hug as [-> | ->]; reflexivity).
      rewrite Hd.
      replace ((ug =? H264)%Z || (ug =? H265)%Z || (ug =? AV1)%Z) with true
        by (destruct Hug as [-> | ->]; reflexivity).
      destruct (setparam_h264_h265_av1 name); first [contradiction | reflexivity]. }
    split; [| split; [| split; [| split; [| split; [| split; [| split; [| split]]]]]]].
    + unfold presets_set. rewrite Hb. apply Hsmall; discriminate.
    + unfold presets_set. rewrite Hb. apply Hsmall; discriminate.
    + unfold presets_set. rewrite Hb. reflexivity.
    + unfold presets_set. rewrite Hb. apply Hsmall; discriminate.
    + split; [| split]; vm_compute; reflexivity.
    + intros ug name Hug Hnv. unfold presets_set. rewrite Hb, Hnv.
      destruct Hug as [<- | [<- | [<- | []]]]; simpl.
      * rewrite nvenc_preset_dont_set by exact Hnv. reflexivity.
      * rewrite nvenc_preset_dont_set by exact Hnv. reflexivity.
      * unfold get_av1_preset. rewrite nvenc_not_svtav1 by exact Hnv. reflexivity.
    + intros ug Hug.
      assert (Hg : get_preset ug = Some get_h264_h265_preset) by (destruct Hug as [-> | ->]; reflexivity).
      assert (Hc : ((ug =? H264)%Z || (ug =? H265)%Z || (ug =? AV1)%Z) = true)
        by (destruct Hug as [-> | ->]; reflexivity).
      split; [| split].
      * unfold presets_set. rewrite Hb, Hg, Hc. reflexivity.
      * unfold presets_set. rewrite Hb, Hg, Hc. reflexivity.
      * intros pre. split.
        -- apply Hdont; [exact Hug | |].
           ++ unfold setparam_h264_h265_av1. rewrite ends_with_self_app. discriminate.
           ++ apply h26x_preset_dont_set. left. apply ends_with_self_app.
        -- apply Hdont; [exact Hug | |].
           ++ rewrite vaapi_name. discriminate.
           ++ apply h26x_preset_dont_set. right; right. split; [apply ends_with_self_app |].
              rewrite (ends_with_app pre "_vaapi" "_qsv") by (simpl; lia). reflexivity.
    + intros name Hname Hnv. unfold presets_set. rewrite Hb. simpl. unfold get_av1_preset.
      destruct (String.eqb_spec name "libsvtav1"); [contradiction |].
      destruct (setparam_h264_h265_av1 name); first [contradiction | reflexivity].
    + intros ug name Hug. unfold presets_set. rewrite Hb. unfold get_preset.
      destruct (Z.eqb_spec ug H264) as [-> | _]; [exfalso; apply Hug; simpl; tauto |].
      destruct (Z.eqb_spec ug H265) as [-> | _]; [exfalso; apply Hug; simpl; tauto |].
      destruct (Z.eqb_spec ug AV1) as [-> | _]; [exfalso; apply Hug; simpl; tauto |].
      reflexivity.
  - intros Hs ug name. unfold presets_set. rewrite bool_decide_eq_true_2 by exact Hs.
    simpl. destruct (_ || _ || _); [| reflexivity].
    destruct (setparam_h264_h265_av1 name); reflexivity.
Qed.

(** ** The "subsampling" option of [parse_fmt] *)

Lemma wrap_int_range (z : Z) : (INT_MIN <= wrap_int z <= INT_MAX)%Z.
Proof.
  unfold wrap_int, INT_MIN, INT_MAX.
  pose proof (Z.mod_pos_bound (z + 2 ^ 31) (2 ^ 32)). lia.
Qed.

Lemma wrap_int_small (z : Z) : (INT_MIN <= z <= INT_MAX)%Z -> wrap_int z = z.
Proof.
  unfold wrap_int, INT_MIN, INT_MAX. intros Hz.
  rewrite Z.mod_small by lia. lia.
Qed.

(** The [int] values [v < 1000] with [v * 10] (wrapped) equal to [t]. *)
Lemma wrap_int_times10 (v t : Z) :
  (INT_MIN <= v < 1000)%Z -> (t = 4200 \/ t = 4220 \/ t = 4440)%Z ->
  (wrap_int (v * 10) =? t)%Z = (v * 10 =? t)%Z || (v * 10 =? t - 5 * 2 ^ 32)%Z.
Proof.
  intros Hv Ht. unfold wrap_int, INT_MIN in *.
  pose proof (Z.mod_pos_bound (v * 10 + 2 ^ 31) (2 ^ 32)) as Hb.
  pose proof (Z.div_mod (v * 10 + 2 ^ 31) (2 ^ 32) ltac:(lia)) as Hd.
  set (q := ((v * 10 + 2 ^ 31) / 2 ^ 32)%Z) in *.
  set (m := ((v * 10 + 2 ^ 31) mod 2 ^ 32)%Z) in *.
  destruct (Z.eqb_spec (m - 2 ^ 31) t), (Z.eqb_spec (v * 10) t), (Z.eqb_spec (v * 10) (t - 5 * 2 ^ 32));
    simpl; try reflexivity; exfalso; lia.
Qed.

(** The item "subsampling=<n>" is accepted exactly when [atoi(n)] is 420,
    422, 444, 4200, 4220 or 4440, or one of the three negative [int]s
    whose product by ten wraps to 4200, 4220 or 4440; a value below 1000 is
    stored multiplied by ten (as an [int]), and the request is updated also
    when the item is rejected. *)
Theorem parse_subsampling (gcn : string -> Z) (ue : string -> Z) (ued : string -> dbl)
    (af : string -> dbl) (r : lavc_request) (show_help : bool) (s : string) :
  let v := atoi s in
  let v' := if (v <? 1000)%Z then wrap_int (v * 10) else v in
  let r' := set_conv_prop r (set_subsampling (req_conv_prop r) v') in
  (INT_MIN <= v <= INT_MAX)%Z /\
  parse_item gcn ue ued af r show_help ("subsampling=" ++ s) =
  if existsb (Z.eqb v) [420; 422; 444; 4200; 4220; 4440;
                         -2147483228; -2147483226; -2147483204]%Z
  then ItemNext r' show_help else ItemFail r'.
Proof.
  cbv zeta. split; [apply wrap_int_range |].
  unfold parse_item. simpl.
  pose proof (wrap_int_range (strtol s)) as Hr. fold (atoi s) in Hr.
  destruct (Z.ltb_spec (atoi s) 1000).
  - rewrite !wrap_int_times10 by (unfold INT_MIN in *; lia).
    destruct (Z.eqb_spec (atoi s * 10) 4440), (Z.eqb_spec (atoi s * 10) 4220),
      (Z.eqb_spec (atoi s * 10) 4200); simpl; try lia;
    destruct (Z.eqb_spec (atoi s * 10) (4440 - 5 * 2 ^ 32)); simpl; try lia;
    destruct (Z.eqb_spec (atoi s * 10) (4220 - 5 * 2 ^ 32)); simpl; try lia;
    destruct (Z.eqb_spec (atoi s * 10) (4200 - 5 * 2 ^ 32)); simpl; try lia;
    destruct (Z.eqb_spec (atoi s) 420); try lia; destruct (Z.eqb_spec (atoi s) 422); try lia;
    destruct (Z.eqb_spec (atoi s) 444); try lia; destruct (Z.eqb_spec (atoi s) 4200); try lia;
    destruct (Z.eqb_spec (atoi s) 4220); try lia; destruct (Z.eqb_spec (atoi s) 4440); try lia;
    destruct (Z.eqb_spec (atoi s) (-2147483228)); try lia;
    destruct (Z.eqb_spec (atoi s) (-2147483226)); try lia;
    destruct (Z.eqb_spec (atoi s) (-2147483204)); try lia;
    reflexivity.
  - destruct (Z.eqb_spec (atoi s) 4440), (Z.eqb_spec (atoi s) 4220), (Z.eqb_spec (atoi s) 4200);
      simpl; try lia;
    destruct (Z.eqb_spec (atoi s) 420); try lia; destruct (Z.eqb_spec (atoi s) 422); try lia;
    destruct (Z.eqb_spec (atoi s) 444); try lia; destruct (Z.eqb_spec (atoi s) 4200); try lia;
    destruct (Z.eqb_spec (atoi s) 4220); try lia; destruct (Z.eqb_spec (atoi s) 4440); try lia;
    destruct (Z.eqb_spec (atoi s) (-2147483228)); try lia;
    destruct (Z.eqb_spec (atoi s) (-2147483226)); try lia;
    destruct (Z.eqb_spec (atoi s) (-2147483204)); try lia;
    reflexivity.
Qed.

(** [atoi] wraps as [(int) strtol]: "subsampling=4294971736" reads 4440
    and "subsampling=-2147483228" gives [-2147483228 * 10], wrapped to 4200;
    both are accepted, "subsampling=411" is rejected. *)
Lemma parse_subsampling_wrapped_inputs :
  let acc item := match parse_item ex_get_codec_from_name ex_unit_evaluate ex_unit_evaluate_dbl
                          ex_atof (initial_request 8) false item with
                  | ItemNext _ _ => true | _ => false end in
  atoi "4294971736" = 4440%Z /\ wrap_int (atoi "-2147483228" * 10) = 4200%Z /\
  acc "subsampling=4294971736" = true /\ acc "subsampling=-2147483228" = true /\
  acc "subsampling=411" = false.
Proof. vm_compute. repeat split. Qed.

(** ** Escaped colons in option values *)

Lemma has_char_cons (c a : ascii) (s : string) :
  has_char c (String a s) = Ascii.eqb c a || has_char c s.
Proof. unfold has_char. simpl. rewrite andb_true_r. reflexivity. Qed.

Lemma has_char_app (c : ascii) (a b : string) : has_char c (a ++ b) = has_char c a || has_char c b.
Proof.
  induction a as [| x a IH]; [destruct b; reflexivity |].
  change (String x a ++ b)%string with (String x (a ++ b)). rewrite !has_char_cons, IH.
  apply orb_assoc.
Qed.

Lemma replace_escaped_colon_cons (c : ascii) (s : string) :
  match s with String b _ => Ascii.eqb b ":" = false | EmptyString => True end ->
  replace_escaped_colon (String c s) = String c (replace_escaped_colon s).
Proof. destruct s as [| b s]; simpl; intros H; [reflexivity | rewrite H, andb_false_r; reflexivity]. Qed.

Lemma replace_escaped_colon_cons_nb (c : ascii) (s : string) :
  Ascii.eqb c "\" = false -> replace_escaped_colon (String c s) = String c (replace_escaped_colon s).
Proof. intros H. destruct s as [| b s]; simpl; [reflexivity | rewrite H; reflexivity]. Qed.

Lemma escape_colons_head (v : string) :
  match escape_colons v with String b _ => Ascii.eqb b ":" = false | EmptyString => True end.
Proof.
  destruct v as [| c v]; simpl; [exact I |].
  destruct (Ascii.eqb c ":") eqn:Ec; [reflexivity | exact Ec].
Qed.

Lemma replace_escaped_colon_escape (v : string) :
  replace_escaped_colon (escape_colons v) = colons_to_deldel v.
Proof.
  induction v as [| c v IH]; [reflexivity |]. simpl.
  destruct (Ascii.eqb c ":") eqn:Ec.
  - simpl. rewrite IH. reflexivity.
  - rewrite replace_escaped_colon_cons by apply escape_colons_head. rewrite IH. reflexivity.
Qed.

Lemma colons_to_deldel_no_colon (v : string) : has_char ":" (colons_to_deldel v) = false.
Proof.
  induction v as [| c v IH]; [reflexivity |]. simpl.
  destruct (Ascii.eqb c ":") eqn:Ec; rewrite !has_char_cons, IH; [reflexivity |].
  rewrite Ascii.eqb_sym, Ec. reflexivity.
Qed.

Lemma replace_deldel_cons (c : ascii) (s : string) :
  Ascii.eqb c DEL = false -> replace_deldel (String c s) = String c (replace_deldel s).
Proof. intros H. destruct s as [| b s]; simpl; [reflexivity | rewrite H; reflexivity]. Qed.

Lemma replace_deldel_colons (v : string) :
  has_char DEL v = false -> replace_deldel (colons_to_deldel v) = v.
Proof.
  induction v as [| c v IH]; intros H; [reflexivity |].
  rewrite has_char_cons in H. apply orb_false_iff in H as [Hc Hv]. simpl.
  destruct (Ascii.eqb_spec c ":") as [-> | Ec].
  - simpl. rewrite (IH Hv). reflexivity.
  - rewrite replace_deldel_cons by (rewrite Ascii.eqb_sym; exact Hc). rewrite (IH Hv). reflexivity.
Qed.

Lemma strtok_colon_aux_no_colon (s cur : string) :
  has_char ":" s = false ->
  strtok_colon_aux s cur = if String.eqb (cur ++ s) "" then [] else [(cur ++ s)%string].
Proof.
  revert cur. induction s as [| c s IH]; intros cur H; simpl.
  - rewrite str_app_nil_r. reflexivity.
  - rewrite has_char_cons in H. apply orb_false_iff in H as [Hc Hs].
    rewrite Ascii.eqb_sym, Hc. rewrite (IH _ Hs), str_app_assoc. reflexivity.
Qed.

Lemma replace_escaped_colon_key (k x : string) :
  has_char ":" k = false -> replace_escaped_colon (k ++ "=" ++ x) = (k ++ "=" ++ replace_escaped_colon x)%string.
Proof.
  induction k as [| c k IH]; intros H.
  - apply replace_escaped_colon_cons_nb. reflexivity.
  - rewrite has_char_cons in H. apply orb_false_iff in H as [Hc Hk].
    change (String c k ++ "=" ++ x)%string with (String c (k ++ "=" ++ x)).
    rewrite replace_escaped_colon_cons, (IH Hk); [reflexivity |].
    destruct k as [| c' k]; [reflexivity |]. simpl.
    rewrite has_char_cons in Hk. apply orb_false_iff in Hk as [Hc' _].
    rewrite Ascii.eqb_sym. exact Hc'.
Qed.

Lemma str_before_key (k x : string) : has_char "=" k = false -> str_before "=" (k ++ "=" ++ x) = k.
Proof.
  induction k as [| c k IH]; intros H; [reflexivity |].
  rewrite has_char_cons in H. apply orb_false_iff in H as [Hc Hk].
  change (String c k ++ "=" ++ x)%string with (String c (k ++ "=" ++ x)). cbn [str_before].
  rewrite Ascii.eqb_sym, Hc, (IH Hk). reflexivity.
Qed.

Lemma str_after_key (k x : string) : has_char "=" k = false -> str_after "=" (k ++ "=" ++ x) = x.
Proof.
  induction k as [| c k IH]; intros H; [reflexivity |].
  rewrite has_char_cons in H. apply orb_false_iff in H as [Hc Hk].
  change (String c k ++ "=" ++ x)%string with (String c (k ++ "=" ++ x)). cbn [str_after].
  rewrite Ascii.eqb_sym, Hc. exact (IH Hk).
Qed.

(** An option "key=value" whose value has its colons escaped as "\:" (and
    contains no DEL character) stays one item through the colon
    tokenisation of [parse_fmt], and the "key=value" branch recovers
    exactly the key and the unescaped value; the key must not contain a
    colon or an equals sign. *)
Theorem escaped_option_round_trip (k v : string) :
  has_char ":" k = false -> has_char "=" k = false -> has_char DEL v = false ->
  let item := (k ++ "=" ++ colons_to_deldel v)%string in
  strtok_colon (replace_escaped_colon (k ++ "=" ++ escape_colons v)) = [item] /\
  str_before "=" item = k /\ replace_deldel (str_after "=" item) = v.
Proof.
  intros Hk1 Hk2 Hv. cbv zeta. split; [| split].
  - rewrite replace_escaped_colon_key, replace_escaped_colon_escape by exact Hk1.
    unfold strtok_colon. rewrite strtok_colon_aux_no_colon.
    + simpl. destruct k; reflexivity.
    + rewrite !has_char_app, Hk1, colons_to_deldel_no_colon. reflexivity.
  - apply str_before_key. exact Hk2.
  - rewrite str_after_key by exact Hk2. apply replace_deldel_colons. exact Hv.
Qed.

Lemma escaped_option_round_trip_witness :
  has_char ":" "x265-params" = false /\ has_char "=" "x265-params" = false /\
  has_char DEL "keyint=10:min-keyint=5" = false /\
  strtok_colon (replace_escaped_colon ("x265-params" ++ "=" ++ escape_colons "keyint=10:min-keyint=5")) =
    [("x265-params" ++ "=" ++ colons_to_deldel "keyint=10:min-keyint=5")%string] /\
  str_before "=" ("x265-params" ++ "=" ++ colons_to_deldel "keyint=10:min-keyint=5") = "x265-params" /\
  replace_deldel (str_after "=" ("x265-params" ++ "=" ++ colons_to_deldel "keyint=10:min-keyint=5")) =
    "keyint=10:min-keyint=5".
Proof.
  split; [reflexivity | split; [reflexivity | split; [reflexivity |]]].
  apply (escaped_option_round_trip "x265-params" "keyint=10:min-keyint=5"); reflexivity.
Defined.

Lemma str_contains_app_r (p a b : string) : str_contains p b = true -> str_contains p (a ++ b) = true.
Proof.
  intros H. induction a as [| c a IH]; [exact H |].
  change (starts_with p (String c (a ++ b)) || str_contains p (a ++ b) = true).
  rewrite IH. apply orb_true_r.
Qed.

(** The "intra_refresh" test of [parse_fmt] looks anywhere in the item, so
    an "x265-params=<value>" option whose value mentions
    "intra_refresh" is not passed to the codec: it switches periodic intra
    refresh on and the value is dropped. *)
Theorem x265_params_value_captured (gcn ue : string -> Z) (ued af : string -> dbl)
    (r : lavc_request) (show_help : bool) (w : string) :
  str_contains "intra_refresh" w = true ->
  parse_item gcn ue ued af r show_help ("x265-params=" ++ w) =
    ItemNext (set_params r (set_periodic_intra (params r) 1)) show_help.
Proof.
  intros Hw. pose proof (str_contains_app_r "intra_refresh" "x265-params=" w Hw) as Hc.
  unfold parse_item. rewrite Hc. reflexivity.
Qed.

Lemma x265_params_value_captured_witness :
  str_contains "intra_refresh" "no-intra_refresh" = true /\
  parse_item ex_get_codec_from_name ex_unit_evaluate ex_unit_evaluate_dbl ex_atof (initial_request 8) false
    ("x265-params=" ++ "no-intra_refresh") =
    ItemNext (set_params (initial_request 8) (set_periodic_intra (params (initial_request 8)) 1)) false.
Proof.
  split; [reflexivity |].
  apply (x265_params_value_captured ex_get_codec_from_name ex_unit_evaluate ex_unit_evaluate_dbl ex_atof
           (initial_request 8) false "no-intra_refresh"). reflexivity.
Defined.
